(** * Microsoft Graph mail notifiers of epic-awesome-gamer

    A shallow embedding of the two notifiers of the repository,

    - [src/app/extensions/ms_graph_mailer.py]   (class [MsGraphMailer]) and
    - [src/app/services/notification_service.py] (class [MicrosoftMailClient]),

    and the properties their specification states about them.

    Both classes talk to two external collaborators: the MSAL confidential
    client (token acquisition) and an HTTP client (the Graph [sendMail]
    endpoint), and both write structured log records.  The embedding keeps
    these effects explicit: every method is a computation that yields the
    ordered list of the events it performed together with its outcome, a
    returned value or a raised exception.  What the collaborators answer is
    a parameter, the [world].

    Scope of the model.  The collaborators answer every call: a token
    dictionary (or [None] for the silent attempt) and an HTTP response.
    Exceptions the libraries raise on their own account (a transport failure,
    a timeout) have no handler in either class and are not part of the model.
    The promotions are a finite list, as the specification hands them over. *)

From Stdlib Require Import Ascii.
From stdpp Require Import gmap strings list.

(** ** Python values used by the two classes *)

(** [str | None] attributes; truthiness as Python defines it: [None] and the
    empty string are false. *)
Definition truthy (v : option string) : bool :=
  match v with
  | None => false
  | Some s => negb (String.eqb s "")
  end.

(** [all([...])] over such attributes. *)
Definition all (vs : list (option string)) : bool := forallb truthy vs.

(** How an f-string renders a [str | None] value. *)
Definition fmt (v : option string) : string :=
  match v with
  | None => "None"
  | Some s => s
  end.

(** The token endpoint's answer, a Python [dict] with string keys.  A
    dictionary is true when it is not empty. *)
Definition dict_truthy (d : gmap string string) : bool := bool_decide (d ≠ ∅).

(** [key in d]. *)
Definition dict_has (k : string) (d : gmap string string) : bool :=
  bool_decide (is_Some (d !! k)).

(** JSON documents, as the [json=] argument of the HTTP client takes them.
    Objects keep their keys in insertion order, as Python dictionaries do. *)
#[warnings="-register-all"]
Inductive json : Type :=
| JNull
| JBool (b : bool)
| JString (s : string)
| JArray (items : list json)
| JObject (fields : list (string * json)).

Definition json_of_attr (v : option string) : json :=
  match v with
  | None => JNull
  | Some s => JString s
  end.

(** Lookup of a key in a JSON object ([None] on anything else). *)
Fixpoint assoc (k : string) (fields : list (string * json)) : option json :=
  match fields with
  | [] => None
  | (k', v) :: rest => if String.eqb k k' then Some v else assoc k rest
  end.

Definition member (k : string) (j : json) : option json :=
  match j with
  | JObject fields => assoc k fields
  | _ => None
  end.

(** Modelled from the spec: the record [PromotionGame] of module [models],
    which is not part of the sources at hand.  The spec gives it the text
    attributes [title], [url] and [description]; the notifiers read nothing
    else of it. *)
Record PromotionGame : Type := {
  title : string;
  url : string;
  description : string
}.

(** ** The collaborators *)

(** [msal.ConfidentialClientApplication], by the arguments it is built from. *)
Record ConfidentialClientApplication : Type := {
  app_client_id : option string;
  app_client_credential : option string;
  app_authority : option string
}.

(** [httpx.Response]: the status code and the body text. *)
Record Response : Type := {
  status_code : Z;
  text : string
}.

(** [Response.is_success]: a 2xx status. *)
Definition is_success (r : Response) : bool :=
  (200 <=? status_code r)%Z && (status_code r <=? 299)%Z.

(** Values of the keyword arguments of a log record. *)
Inductive logval : Type :=
| LNames (names : list string)
| LAttr (v : option string)
| LInt (n : Z)
| LText (s : string).

Inductive level : Type := DEBUG | WARNING | ERROR | SUCCESS.

(** What a method does to the outside, in the order it does it. *)
Inductive event : Type :=
| AcquireTokenSilent (app : ConfidentialClientApplication) (scopes : list string)
| AcquireTokenForClient (app : ConfidentialClientApplication) (scopes : list string)
| Post (target : string) (payload : json) (headers : list (string * string)) (timeout : Z)
| Log (lvl : level) (msg : string) (kwargs : list (string * logval)).

(** The token request and the [sendMail] POST go over the network; a silent
    acquisition reads the client's token cache, a log record stays local. *)
Definition is_token_request (e : event) : bool :=
  match e with AcquireTokenForClient _ _ => true | _ => false end.

Definition is_sendmail_post (e : event) : bool :=
  match e with Post _ _ _ _ => true | _ => false end.

Definition is_silent_attempt (e : event) : bool :=
  match e with AcquireTokenSilent _ _ => true | _ => false end.

Definition is_network_call (e : event) : bool :=
  is_token_request e || is_sendmail_post e.

Definition is_log (e : event) : bool :=
  match e with Log _ _ _ => true | _ => false end.

Definition network_calls (tr : list event) : list event :=
  List.filter is_network_call tr.

(** The answers of the collaborators.  [acquire_token_silent] yields a
    dictionary or [None]; [acquire_token_for_client] yields the dictionary of
    the token endpoint's JSON response; [post] yields the HTTP response. *)
Record world : Type := {
  acquire_token_silent :
    ConfidentialClientApplication -> list string -> option (gmap string string);
  acquire_token_for_client :
    ConfidentialClientApplication -> list string -> gmap string string;
  post : string -> json -> list (string * string) -> Z -> Response
}.

(** ** Computations: a trace of events and an outcome *)

Inductive exn : Type :=
| AssertionError
| RuntimeError (msg : string)
| HTTPStatusError (response : Response).

Inductive outcome (A : Type) : Type :=
| Returned (a : A)
| Raised (e : exn).
Arguments Returned {A} a.
Arguments Raised {A} e.

Definition io (A : Type) : Type := (list event * outcome A)%type.

Definition ret {A} (a : A) : io A := ([], Returned a).

Definition raise {A} (e : exn) : io A := ([], Raised e).

Definition bind {A B} (c : io A) (k : A -> io B) : io B :=
  match c with
  | (tr, Returned a) => let '(tr', o) := k a in (tr ++ tr', o)
  | (tr, Raised e) => (tr, Raised e)
  end.

Definition emit (e : event) : io unit := ([e], Returned tt).

Notation "'let*' x ':=' c 'in' k" := (bind c (fun x => k))
  (at level 10, x name, c at level 100, k at level 200).

Definition trace {A} (c : io A) : list event := fst c.
Definition result {A} (c : io A) : outcome A := snd c.

(** The [logger] calls. *)
Definition log (lvl : level) (msg : string) (kwargs : list (string * logval)) : io unit :=
  emit (Log lvl msg kwargs).

Definition scopes : list string := ["https://graph.microsoft.com/.default"].

(** The double quote character, for the attribute values of the HTML. *)
Definition dquote : string := String (Ascii.ascii_of_nat 34) EmptyString.

(** Calls into the collaborators: the call is recorded, the [world] answers. *)
Definition call_acquire_token_silent (w : world)
    (app : ConfidentialClientApplication) (sc : list string)
  : io (option (gmap string string)) :=
  let* _ := emit (AcquireTokenSilent app sc) in
  ret (acquire_token_silent w app sc).

Definition call_acquire_token_for_client (w : world)
    (app : ConfidentialClientApplication) (sc : list string)
  : io (gmap string string) :=
  let* _ := emit (AcquireTokenForClient app sc) in
  ret (acquire_token_for_client w app sc).

Definition client_post (w : world) (target : string) (payload : json)
    (headers : list (string * string)) (timeout : Z) : io Response :=
  let* _ := emit (Post target payload headers timeout) in
  ret (post w target payload headers timeout).

(** [Response.raise_for_status]. *)
Definition raise_for_status (r : Response) : io unit :=
  if is_success r then ret tt else raise (HTTPStatusError r).

(** A [result] variable holding a dictionary or [None]. *)
Definition res_truthy (r : option (gmap string string)) : bool :=
  match r with
  | None => false
  | Some d => dict_truthy d
  end.

Definition res_has (k : string) (r : option (gmap string string)) : bool :=
  match r with
  | None => false
  | Some d => dict_has k d
  end.

Definition res_get (k : string) (r : option (gmap string string)) : option string :=
  match r with
  | None => None
  | Some d => d !! k
  end.

Definition recipient_entry (address : json) : json :=
  JObject [("emailAddress", JObject [("address", address)])].

(** ** [src/app/extensions/ms_graph_mailer.py] *)

Module ms_graph_mailer.

Record MsGraphMailer : Type := {
  client_id : option string;
  client_secret : option string;
  tenant_id : option string;
  sender : option string;
  recipient : option string;
  _confidential_client : option ConfidentialClientApplication
}.

(** [MsGraphMailer.__init__], lines 18-41. *)
Definition __init__ (client_id client_secret tenant_id sender recipient : option string)
  : MsGraphMailer :=
  let authority :=
    if truthy tenant_id
    then Some ("https://login.microsoftonline.com/" +:+ fmt tenant_id)
    else None in
  {| client_id := client_id;
     client_secret := client_secret;
     tenant_id := tenant_id;
     sender := sender;
     recipient := recipient;
     _confidential_client :=
       if all [client_id; client_secret; authority]
       then Some {| app_client_id := client_id;
                    app_client_credential := client_secret;
                    app_authority := authority |}
       else None |}.

(** The names and values that [is_configured] walks through, lines 49-55. *)
Definition named_configs (self : MsGraphMailer) : list (string * option string) :=
  [ ("MS_CLIENT_ID", client_id self);
    ("MS_CLIENT_SECRET", client_secret self);
    ("MS_TENANT_ID", tenant_id self);
    ("MS_SENDER_ADDRESS", sender self);
    ("MS_RECIPIENT_ADDRESS", recipient self) ].

Definition missing_configs (self : MsGraphMailer) : list string :=
  map fst (List.filter (fun nv => negb (truthy (snd nv))) (named_configs self)).

(** [MsGraphMailer.is_configured], lines 43-65. *)
Definition is_configured (self : MsGraphMailer) : io bool :=
  if negb (all [client_id self; client_secret self; tenant_id self;
                sender self; recipient self])
  then
    let* _ := log WARNING
                "Microsoft Graph mailer is not fully configured; skip sending digest."
                [("missing_configs", LNames (missing_configs self))] in
    ret false
  else if negb (bool_decide (is_Some (_confidential_client self)))
  then
    let* _ := log ERROR
                "Failed to initialize MSAL confidential client; check configuration."
                [] in
    ret false
  else ret true.

(** [MsGraphMailer._acquire_token], lines 67-83. *)
Definition _acquire_token (w : world) (self : MsGraphMailer) : io (option string) :=
  match _confidential_client self with
  | None => raise AssertionError
  | Some app =>
      let* result := call_acquire_token_silent w app scopes in
      let* result :=
        if negb (res_truthy result)
        then let* r := call_acquire_token_for_client w app scopes in ret (Some r)
        else ret result in
      if negb (res_truthy result) || negb (res_has "access_token" result)
      then
        let* _ := log ERROR "Failed to acquire Microsoft Graph access token."
                    [("error",
                      LAttr (if res_truthy result then res_get "error" result else None));
                     ("description",
                      LAttr (if res_truthy result
                             then res_get "error_description" result else None))] in
        ret None
      else ret (res_get "access_token" result)
  end.

(** One list item of [_build_body], line 92. *)
Definition game_item (game : PromotionGame) : string :=
  "<li><strong>" +:+ title game +:+ "</strong> - <a href=" +:+ dquote +:+ url game
  +:+ dquote +:+ ">" +:+ url game +:+ "</a></li>".

(** [MsGraphMailer._build_body], lines 85-95. *)
Definition _build_body (promotions : list PromotionGame) : string :=
  let items := promotions in
  match items with
  | [] => "<p>No free games detected from Epic Store at this time.</p>"
  | _ :: _ =>
      let game_items := String.concat "" (map game_item items) in
      "<p>Here are the current free games on Epic Store:</p><ul>" +:+ game_items
      +:+ "</ul>"
  end.

(** The [payload] of [send_free_game_digest], lines 105-113. *)
Definition payload (self : MsGraphMailer) (promotions : list PromotionGame) : json :=
  JObject
    [ ("message",
       JObject
         [ ("subject", JString "Epic Store - Weekly Free Games Update");
           ("body", JObject [ ("contentType", JString "HTML");
                              ("content", JString (_build_body promotions)) ]);
           ("toRecipients", JArray [recipient_entry (json_of_attr (recipient self))]);
           ("from", JObject [("emailAddress",
                              JObject [("address", json_of_attr (sender self))])]) ]);
      ("saveToSentItems", JString "true") ].

(** [MsGraphMailer.send_free_game_digest], lines 97-128. *)
Definition send_free_game_digest (w : world) (self : MsGraphMailer)
    (promotions : list PromotionGame) : io unit :=
  let* configured := is_configured self in
  if negb configured then ret tt
  else
    let* token := _acquire_token w self in
    if negb (truthy token) then ret tt
    else
      let headers := [("Authorization", "Bearer " +:+ fmt token)] in
      let url :=
        "https://graph.microsoft.com/v1.0/users/" +:+ fmt (sender self) +:+ "/sendMail" in
      let* response := client_post w url (payload self promotions) headers 30 in
      if is_success response
      then log SUCCESS "Free game digest email sent via Microsoft Graph." []
      else log ERROR "Failed to send free game digest email."
             [("status_code", LInt (status_code response));
              ("content", LText (text response))].

End ms_graph_mailer.

(** ** [src/app/services/notification_service.py] *)

Module notification_service.

Record MicrosoftMailClient : Type := {
  authority : string;
  client_id : string;
  client_secret : string;
  sender : string;
  recipients : list string
}.

(** [MicrosoftMailClient.__init__], lines 17-29. *)
Definition __init__ (tenant_id client_id client_secret sender : string)
    (recipients : list string) : MicrosoftMailClient :=
  {| authority := "https://login.microsoftonline.com/" +:+ tenant_id;
     client_id := client_id;
     client_secret := client_secret;
     sender := sender;
     recipients := recipients |}.

(** [MicrosoftMailClient._acquire_token], lines 41-52.  The membership test
    of line 48 and the subscript of line 52 read the same key. *)
Definition _acquire_token (w : world) (self : MicrosoftMailClient) : io string :=
  let app := {| app_client_id := Some (client_id self);
                app_client_credential := Some (client_secret self);
                app_authority := Some (authority self) |} in
  let* result := call_acquire_token_for_client w app scopes in
  match result !! "access_token" with
  | None =>
      raise (RuntimeError ("Failed to acquire Microsoft Graph token: "
                           +:+ fmt (result !! "error_description")))
  | Some access_token => ret access_token
  end.

(** One list item of [send_promotions], line 69. *)
Definition promotion_item (promotion : PromotionGame) : string :=
  "<li><a href=" +:+ dquote +:+ url promotion +:+ dquote +:+ ">" +:+ title promotion
  +:+ "</a> — " +:+ description promotion +:+ "</li>".

(** The [html_body] of [send_promotions], lines 66-79. *)
Definition html_body (promotions : list PromotionGame) : string :=
  let items := map promotion_item promotions in
  String.concat ""
    [ "<p>以下是本周可领取的 Epic 免费游戏：</p>";
      "<ul>";
      String.concat "" items;
      "</ul>";
      "<p>邮件由 epic-awesome-gamer 自动发送。</p>" ].

(** The [message] of [send_promotions], lines 81-87. *)
Definition message (self : MicrosoftMailClient) (promotions : list PromotionGame) : json :=
  JObject
    [ ("message",
       JObject
         [ ("subject", JString "Epic 免费游戏更新");
           ("body", JObject [ ("contentType", JString "HTML");
                              ("content", JString (html_body promotions)) ]);
           ("toRecipients",
            JArray (map (fun r => recipient_entry (JString r)) (recipients self))) ]) ].

(** [MicrosoftMailClient.send_promotions], lines 54-96. *)
Definition send_promotions (w : world) (self : MicrosoftMailClient)
    (promotions : list PromotionGame) : io unit :=
  match promotions with
  | [] => log DEBUG "No promotions to send, skipping email notification" []
  | _ :: _ =>
      match recipients self with
      | [] =>
          log WARNING
            "Microsoft email recipients are not configured; skipping free game notification"
            []
      | _ :: _ =>
          let* token := _acquire_token w self in
          let url :=
            "https://graph.microsoft.com/v1.0/users/" +:+ sender self +:+ "/sendMail" in
          let headers := [("Authorization", "Bearer " +:+ token)] in
          let* resp := client_post w url (message self promotions) headers 30 in
          let* _ := raise_for_status resp in
          log SUCCESS "Free game notification sent via Microsoft email" []
      end
  end.

End notification_service.

Module En := ms_graph_mailer.
Module Zh := notification_service.

(** ** Sample data used by the closed examples *)

Definition game_a : PromotionGame :=
  {| title := "Game A"; url := "http://x/a"; description := "first" |}.

Definition game_b : PromotionGame :=
  {| title := "Game B"; url := "http://x/b"; description := "second" |}.

(** A world in which nothing is cached, the token endpoint grants a token
    and the mail endpoint accepts the message. *)
Definition granting_world : world :=
  {| acquire_token_silent := fun _ _ => None;
     acquire_token_for_client := fun _ _ => {[ "access_token" := "tok" ]};
     post := fun _ _ _ _ => {| status_code := 202; text := "" |} |}.

(** A world whose token endpoint refuses the credentials. *)
Definition refusing_world : world :=
  {| acquire_token_silent := fun _ _ => None;
     acquire_token_for_client := fun _ _ =>
       {[ "error" := "invalid_client"; "error_description" := "bad secret" ]};
     post := fun _ _ _ _ => {| status_code := 202; text := "" |} |}.

(** A world whose mail endpoint answers 500. *)
Definition failing_world : world :=
  {| acquire_token_silent := fun _ _ => None;
     acquire_token_for_client := fun _ _ => {[ "access_token" := "tok" ]};
     post := fun _ _ _ _ => {| status_code := 500; text := "boom" |} |}.

Definition en_mailer : En.MsGraphMailer :=
  En.__init__ (Some "cid") (Some "secret") (Some "tenant")
    (Some "me@example.org") (Some "you@example.org").

(** The confidential client its constructor builds. *)
Definition en_app : ConfidentialClientApplication :=
  {| app_client_id := Some "cid";
     app_client_credential := Some "secret";
     app_authority := Some "https://login.microsoftonline.com/tenant" |}.

Definition zh_client : Zh.MicrosoftMailClient :=
  Zh.__init__ "tenant" "cid" "secret" "me@example.org"
    ["you@example.org"; "them@example.org"].

(** ** Vocabulary of the properties *)

(** The test of line 44 of [ms_graph_mailer.py]: all five fields are true. *)
Definition fields_present (self : En.MsGraphMailer) : bool :=
  all [En.client_id self; En.client_secret self; En.tenant_id self;
       En.sender self; En.recipient self].

(** The record [is_configured] logs when a field is missing, lines 45-58. *)
Definition not_configured_warning (self : En.MsGraphMailer) : event :=
  Log WARNING "Microsoft Graph mailer is not fully configured; skip sending digest."
    [("missing_configs", LNames (En.missing_configs self))].

(** The [result] variable of the English [_acquire_token] after lines 71-73:
    the silent answer when it is true, the token endpoint's answer otherwise. *)
Definition acquired (w : world) (app : ConfidentialClientApplication)
  : option (gmap string string) :=
  if res_truthy (acquire_token_silent w app scopes)
  then acquire_token_silent w app scopes
  else Some (acquire_token_for_client w app scopes).

(** The calls of lines 71-73, in order. *)
Definition acquisition_calls (w : world) (app : ConfidentialClientApplication)
  : list event :=
  AcquireTokenSilent app scopes ::
  (if res_truthy (acquire_token_silent w app scopes)
   then []
   else [AcquireTokenForClient app scopes]).

(** The record of lines 76-80. *)
Definition token_failure_log (r : option (gmap string string)) : event :=
  Log ERROR "Failed to acquire Microsoft Graph access token."
    [("error", LAttr (if res_truthy r then res_get "error" r else None));
     ("description",
      LAttr (if res_truthy r then res_get "error_description" r else None))].

(** The request of lines 115-119 and the answer to it. *)
Definition en_target (self : En.MsGraphMailer) : string :=
  "https://graph.microsoft.com/v1.0/users/" +:+ fmt (En.sender self) +:+ "/sendMail".

Definition en_headers (token : option string) : list (string * string) :=
  [("Authorization", "Bearer " +:+ fmt token)].

Definition en_response (w : world) (self : En.MsGraphMailer)
    (promotions : list PromotionGame) (token : option string) : Response :=
  post w (en_target self) (En.payload self promotions) (en_headers token) 30.

(** The record of lines 121-128. *)
Definition delivery_log (response : Response) : event :=
  if is_success response
  then Log SUCCESS "Free game digest email sent via Microsoft Graph." []
  else Log ERROR "Failed to send free game digest email."
         [("status_code", LInt (status_code response));
          ("content", LText (text response))].

(** The client the localized [_acquire_token] builds, lines 42-46. *)
Definition zh_app (self : Zh.MicrosoftMailClient) : ConfidentialClientApplication :=
  {| app_client_id := Some (Zh.client_id self);
     app_client_credential := Some (Zh.client_secret self);
     app_authority := Some (Zh.authority self) |}.

(** The request of lines 89-93 of [notification_service.py] and its answer. *)
Definition zh_target (self : Zh.MicrosoftMailClient) : string :=
  "https://graph.microsoft.com/v1.0/users/" +:+ Zh.sender self +:+ "/sendMail".

Definition zh_headers (token : string) : list (string * string) :=
  [("Authorization", "Bearer " +:+ token)].

Definition zh_response (w : world) (self : Zh.MicrosoftMailClient)
    (promotions : list PromotionGame) (token : string) : Response :=
  post w (zh_target self) (Zh.message self promotions) (zh_headers token) 30.

(** The five fields the specification requires of the English mailer. *)
Definition required_fields (self : En.MsGraphMailer) : list (option string) :=
  [En.tenant_id self; En.client_id self; En.client_secret self;
   En.sender self; En.recipient self].

(** At least one of them is [None] or empty. *)
Definition some_field_empty (self : En.MsGraphMailer) : bool :=
  existsb (fun v => negb (truthy v)) (required_fields self).

(** A localized client whose sender address is empty. *)
Definition zh_client_no_sender : Zh.MicrosoftMailClient :=
  Zh.__init__ "tenant" "cid" "secret" "" ["you@example.org"].

(** A localized client without recipients. *)
Definition zh_client_no_recipients : Zh.MicrosoftMailClient :=
  Zh.__init__ "tenant" "cid" "secret" "me@example.org" [].

(** An English mailer without a client secret and a recipient. *)
Definition en_mailer_incomplete : En.MsGraphMailer :=
  En.__init__ (Some "cid") None (Some "tenant") (Some "me@example.org") (Some "").

(** Descent into nested JSON objects along a path of keys. *)
Fixpoint at_path (path : list string) (j : json) : option json :=
  match path with
  | [] => Some j
  | k :: rest =>
      match member k j with
      | Some j' => at_path rest j'
      | None => None
      end
  end.

(** Whether [s] starts with [pat]. *)
Fixpoint starts_with (pat s : string) : bool :=
  match pat, s with
  | EmptyString, _ => true
  | String _ _, EmptyString => false
  | String a pat', String b s' => Ascii.eqb a b && starts_with pat' s'
  end.

(** How often [pat] occurs in [s], counting every position where it starts. *)
Fixpoint occurrences (pat s : string) : nat :=
  match s with
  | EmptyString => 0
  | String c s' =>
      (if starts_with pat (String c s') then 1 else 0) + occurrences pat s'
  end.

(** The computation ends in the [AssertionError] of a failed [assert]. *)
Definition raises_assertion {A : Type} (c : io A) : bool :=
  match result c with
  | Raised AssertionError => true
  | _ => false
  end.

(** Whether the character [c] occurs in [s]. *)
Fixpoint has_char (c : Ascii.ascii) (s : string) : bool :=
  match s with
  | EmptyString => false
  | String c' s' => Ascii.eqb c c' || has_char c s'
  end.

(** A text without a tag opener. *)
Definition markup_free (s : string) : bool := negb (has_char "<"%char s).

(** Moves the literal head of an append out, character by character. *)
Ltac push_append :=
  repeat match goal with
         | |- context [String ?c ?s +:+ ?t] =>
             change (String c s +:+ t) with (String c (s +:+ t))
         | |- context [EmptyString +:+ ?t] =>
             change (EmptyString +:+ t) with t
         end.

(** ** Reading a rendered body as HTML *)

(** The pieces of an HTML text: a tag, by what stands between its angle
    brackets, or a run of text. *)
Inductive token : Type :=
| Tag (content : string)
| Text (content : string).


(** The double quote character. *)
Abbreviation quote_char := (Ascii false true false false false true false false).













(** ** Vocabulary of the further properties *)

(** How many events of a kind a trace holds. *)
Definition count_events (f : event -> bool) (tr : list event) : nat :=
  length (List.filter f tr).

(** The computation ends in an exception. *)
Definition raises {A : Type} (c : io A) : bool :=
  match result c with
  | Raised _ => true
  | Returned _ => false
  end.

(** Truthiness of a Python list. *)
Definition nonempty {A : Type} (l : list A) : bool :=
  match l with
  | [] => false
  | _ :: _ => true
  end.

Definition is_success_log (e : event) : bool :=
  match e with Log SUCCESS _ _ => true | _ => false end.

(** A world whose confidential client holds a cached token; its token
    endpoint would refuse. *)
Definition cached_world : world :=
  {| acquire_token_silent := fun _ _ => Some {[ "access_token" := "cached" ]};
     acquire_token_for_client := fun _ _ => {[ "error" := "invalid_client" ]};
     post := fun _ _ _ _ => {| status_code := 202; text := "" |} |}.

(** A world whose token endpoint grants an empty access token. *)
Definition empty_token_world : world :=
  {| acquire_token_silent := fun _ _ => None;
     acquire_token_for_client := fun _ _ => {[ "access_token" := "" ]};
     post := fun _ _ _ _ => {| status_code := 202; text := "" |} |}.

(** A world whose silent acquisition answers with an error dictionary. *)
Definition silent_error_answer : gmap string string :=
  {[ "error" := "interaction_required"; "error_description" := "expired" ]}.

Definition silent_error_world : world :=
  {| acquire_token_silent := fun _ _ => Some silent_error_answer;
     acquire_token_for_client := fun _ _ => {[ "access_token" := "tok" ]};
     post := fun _ _ _ _ => {| status_code := 202; text := "" |} |}.

(** A world whose token endpoint answers with an empty dictionary. *)
Definition mute_world : world :=
  {| acquire_token_silent := fun _ _ => None;
     acquire_token_for_client := fun _ _ => ∅;
     post := fun _ _ _ _ => {| status_code := 202; text := "" |} |}.

(** The stage of a send an event belongs to: silent attempt, token request,
    POST, log record. *)
Definition phase (e : event) : nat :=
  match e with
  | AcquireTokenSilent _ _ => 0
  | AcquireTokenForClient _ _ => 1
  | Post _ _ _ _ => 2
  | Log _ _ _ => 3
  end.

(** Every number is smaller than the next one. *)
Fixpoint increasing (l : list nat) : bool :=
  match l with
  | [] => true
  | x :: rest =>
      match rest with
      | [] => true
      | y :: _ => (x <? y) && increasing rest
      end
  end.

(** * Properties *)

(** ** Laws of the computation type *)

Section io_laws.
Context {A B : Type}.

Lemma bind_ret (a : A) (k : A -> io B) : bind (ret a) k = k a.
Proof. unfold bind, ret. destruct (k a) as [tr o]. reflexivity. Qed.

Lemma bind_returned (tr : list event) (a : A) (k : A -> io B) :
  bind (tr, Returned a) k = (tr ++ trace (k a), result (k a)).
Proof. unfold bind, trace, result. destruct (k a). reflexivity. Qed.

End io_laws.

(** ** Truthiness *)

Lemma truthy_Some (v : option string) :
  truthy v = true -> exists s, v = Some s /\ s <> "".
Proof.
  destruct v as [s|]; simpl; [|discriminate].
  intros H. exists s. split; [reflexivity|].
  intros ->. discriminate.
Qed.

Lemma dict_truthy_false (d : gmap string string) :
  dict_truthy d = false -> d = ∅.
Proof.
  unfold dict_truthy. intros H.
  apply bool_decide_eq_false in H.
  destruct (decide (d = ∅)) as [->|Hne]; [reflexivity|]. contradiction.
Qed.

Lemma dict_has_None (k : string) (d : gmap string string) :
  d !! k = None -> dict_has k d = false.
Proof.
  intros H. unfold dict_has. apply bool_decide_eq_false.
  rewrite H. intros [x Hx]. discriminate.
Qed.

(** What a falsy dictionary holds under any key. *)
Lemma falsy_get (k : string) (d : gmap string string) :
  (if dict_truthy d then d !! k else None) = d !! k.
Proof.
  destruct (dict_truthy d) eqn:E; [reflexivity|].
  apply dict_truthy_false in E. subst d. symmetry. apply lookup_empty.
Qed.

(** ** The configuration check *)

Section configuration.
Import ms_graph_mailer.

Lemma is_configured_true (self : MsGraphMailer) :
  result (is_configured self) = Returned true ->
  is_configured self = ([], Returned true)
  /\ fields_present self = true
  /\ exists app, _confidential_client self = Some app.
Proof.
  unfold is_configured, fields_present.
  destruct (all _) eqn:Hall; simpl; [|discriminate].
  destruct (_confidential_client self) as [app|]; simpl; [|discriminate].
  intros _. repeat split. exists app. reflexivity.
Qed.

(** The client exists as soon as the three credentials are there. *)
Lemma init_client (cid sec ten snd rcp : option string) :
  all [cid; sec; ten; snd; rcp] = true ->
  is_Some (_confidential_client (__init__ cid sec ten snd rcp)).
Proof.
  unfold all; simpl. intros H.
  repeat (apply andb_prop in H; destruct H as [? H]).
  destruct (truthy ten) eqn:Hten; [|discriminate].
  unfold all; simpl.
  destruct (truthy cid); [|discriminate].
  destruct (truthy sec); [|discriminate].
  simpl. eauto.
Qed.
End configuration.

(** ** Token acquisition *)

Section token.
Variable w : world.

(** The English acquirer, once the assertion of line 68 holds. *)
Lemma en_acquire_token_eq (self : En.MsGraphMailer)
    (app : ConfidentialClientApplication) :
  En._confidential_client self = Some app ->
  En._acquire_token w self =
    if res_truthy (acquired w app) && res_has "access_token" (acquired w app)
    then (acquisition_calls w app, Returned (res_get "access_token" (acquired w app)))
    else (acquisition_calls w app ++ [token_failure_log (acquired w app)],
          Returned None).
Proof.
  intros Happ. unfold En._acquire_token. rewrite Happ.
  unfold call_acquire_token_silent, call_acquire_token_for_client,
    acquired, acquisition_calls, token_failure_log, log, emit, bind, ret.
  destruct (res_truthy (acquire_token_silent w app scopes)) eqn:Hs;
    simpl; rewrite ?Hs; simpl.
  - destruct (res_has "access_token" (acquire_token_silent w app scopes));
      reflexivity.
  - destruct (dict_truthy (acquire_token_for_client w app scopes)); simpl;
      [|reflexivity].
    destruct (dict_has "access_token" (acquire_token_for_client w app scopes));
      reflexivity.
Qed.

(** The acquirer of the localized client. *)
Lemma zh_acquire_token_eq (self : Zh.MicrosoftMailClient) :
  Zh._acquire_token w self =
    match acquire_token_for_client w (zh_app self) scopes !! "access_token" with
    | Some token => ([AcquireTokenForClient (zh_app self) scopes], Returned token)
    | None =>
        ([AcquireTokenForClient (zh_app self) scopes],
         Raised (RuntimeError
                   ("Failed to acquire Microsoft Graph token: "
                    +:+ fmt (acquire_token_for_client w (zh_app self) scopes
                             !! "error_description"))))
    end.
Proof.
  unfold Zh._acquire_token, call_acquire_token_for_client, emit. simpl.
  fold (zh_app self).
  destruct (acquire_token_for_client w (zh_app self) scopes !! "access_token");
    reflexivity.
Qed.

(** Acquiring a token never posts. *)
Lemma en_acquire_token_no_post (self : En.MsGraphMailer) :
  existsb is_sendmail_post (trace (En._acquire_token w self)) = false.
Proof.
  destruct (En._confidential_client self) as [app|] eqn:Happ.
  - rewrite (en_acquire_token_eq self app Happ). unfold acquisition_calls.
    destruct (res_truthy (acquired w app) && res_has "access_token" (acquired w app));
      destruct (res_truthy (acquire_token_silent w app scopes)); reflexivity.
  - unfold En._acquire_token. rewrite Happ. reflexivity.
Qed.
End token.

(** ** The two dispatchers, path by path *)

Section dispatch.
Variable w : world.

Lemma send_free_game_digest_eq (self : En.MsGraphMailer)
    (promotions : list PromotionGame) :
  En.send_free_game_digest w self promotions =
    if fields_present self then
      match En._confidential_client self with
      | None =>
          ([Log ERROR
              "Failed to initialize MSAL confidential client; check configuration."
              []], Returned tt)
      | Some _ =>
          match En._acquire_token w self with
          | (tr, Returned token) =>
              if truthy token
              then (tr ++ [Post (en_target self) (En.payload self promotions)
                             (en_headers token) 30;
                           delivery_log (en_response w self promotions token)],
                    Returned tt)
              else (tr, Returned tt)
          | (tr, Raised e) => (tr, Raised e)
          end
      end
    else ([not_configured_warning self], Returned tt).
Proof.
  unfold En.send_free_game_digest, En.is_configured.
  fold (fields_present self).
  destruct (fields_present self); [|reflexivity].
  destruct (En._confidential_client self) as [app|]; [|reflexivity].
  simpl negb. cbv iota. rewrite bind_ret. simpl negb. cbv iota.
  destruct (En._acquire_token w self) as [tr [token|e]]; [|reflexivity].
  rewrite bind_returned.
  destruct (truthy token); simpl negb; cbv iota.
  - unfold client_post, emit, delivery_log, en_response, log, emit.
    unfold bind, ret, trace, result. simpl.
    fold (en_target self). fold (en_headers token).
    destruct (is_success _); reflexivity.
  - simpl. rewrite app_nil_r. reflexivity.
Qed.

Lemma send_promotions_eq (self : Zh.MicrosoftMailClient)
    (promotions : list PromotionGame) :
  Zh.send_promotions w self promotions =
    match promotions, Zh.recipients self with
    | [], _ =>
        ([Log DEBUG "No promotions to send, skipping email notification" []],
         Returned tt)
    | _ :: _, [] =>
        ([Log WARNING
            "Microsoft email recipients are not configured; skipping free game notification"
            []], Returned tt)
    | _ :: _, _ :: _ =>
        match Zh._acquire_token w self with
        | (tr, Returned token) =>
            let resp := zh_response w self promotions token in
            (tr ++ Post (zh_target self) (Zh.message self promotions)
                     (zh_headers token) 30 ::
                   (if is_success resp
                    then [Log SUCCESS
                            "Free game notification sent via Microsoft email" []]
                    else []),
             if is_success resp then Returned tt else Raised (HTTPStatusError resp))
        | (tr, Raised e) => (tr, Raised e)
        end
    end.
Proof.
  unfold Zh.send_promotions.
  destruct promotions as [|p ps]; [reflexivity|].
  destruct (Zh.recipients self) as [|r rs] eqn:Hr; [reflexivity|].
  destruct (Zh._acquire_token w self) as [tr [token|e]]; [|reflexivity].
  rewrite bind_returned.
  unfold client_post, emit, raise_for_status, zh_response, log, emit.
  unfold bind, ret, raise, trace, result. simpl.
  fold (zh_target self). fold (zh_headers token).
  destruct (is_success _); reflexivity.
Qed.
End dispatch.

(** ** Sends without a complete configuration *)

Lemma some_field_empty_iff (self : En.MsGraphMailer) :
  some_field_empty self = true <-> fields_present self = false.
Proof.
  unfold some_field_empty, required_fields, fields_present, all. simpl.
  destruct (truthy (En.tenant_id self)), (truthy (En.client_id self)),
    (truthy (En.client_secret self)), (truthy (En.sender self)),
    (truthy (En.recipient self)); simpl; split; congruence.
Qed.

(** C1, as the code has it.  The English mailer, with any of its five
    required fields [None] or empty, logs the "not fully configured" warning
    with the names of the missing fields, returns, and calls neither the token
    endpoint nor [sendMail].  The localized client checks its recipients only:
    with an empty recipient list it returns without a network call, and when
    there are promotions to send it logs that the recipients are not
    configured. *)
Theorem C1_unconfigured_sends_nothing (w : world) (promotions : list PromotionGame) :
  (forall self : En.MsGraphMailer,
     some_field_empty self = true ->
     En.send_free_game_digest w self promotions
       = ([not_configured_warning self], Returned tt)
     /\ network_calls (trace (En.send_free_game_digest w self promotions)) = [])
  /\
  (forall self : Zh.MicrosoftMailClient,
     Zh.recipients self = [] ->
     network_calls (trace (Zh.send_promotions w self promotions)) = []
     /\ result (Zh.send_promotions w self promotions) = Returned tt
     /\ (promotions <> [] ->
         trace (Zh.send_promotions w self promotions)
           = [Log WARNING
                "Microsoft email recipients are not configured; skipping free game notification"
                []])).
Proof.
  split.
  - intros self Hempty. apply some_field_empty_iff in Hempty.
    rewrite send_free_game_digest_eq, Hempty. split; reflexivity.
  - intros self Hnone. rewrite send_promotions_eq, Hnone.
    destruct promotions as [|p ps]; repeat split; try reflexivity.
    intros Hne. contradiction.
Qed.

(** An English mailer without secret and recipient, and a localized client
    without recipients. *)
Lemma C1_unconfigured_sends_nothing_witness :
  (some_field_empty en_mailer_incomplete = true /\
   En.send_free_game_digest granting_world en_mailer_incomplete [game_a; game_b]
     = ([Log WARNING
           "Microsoft Graph mailer is not fully configured; skip sending digest."
           [("missing_configs",
             LNames ["MS_CLIENT_SECRET"; "MS_RECIPIENT_ADDRESS"])]],
        Returned tt))
  /\
  (Zh.recipients zh_client_no_recipients = [] /\
   network_calls
     (trace (Zh.send_promotions granting_world zh_client_no_recipients
               [game_a; game_b])) = []).
Proof.
  split.
  - split; [reflexivity|].
    apply (proj1 (C1_unconfigured_sends_nothing granting_world [game_a; game_b])
             en_mailer_incomplete).
    reflexivity.
  - split; [reflexivity|].
    apply (proj2 (C1_unconfigured_sends_nothing granting_world [game_a; game_b])
             zh_client_no_recipients).
    reflexivity.
Defined.

(** C1 does not hold of the localized client: with an empty sender address,
    a required field, [send_promotions] still requests a token and posts to
    [sendMail], and logs no warning. *)
Lemma C1_counterexample :
  Zh.sender zh_client_no_sender = ""
  /\ network_calls (trace (Zh.send_promotions granting_world zh_client_no_sender [game_a]))
     = [AcquireTokenForClient (zh_app zh_client_no_sender) scopes;
        Post "https://graph.microsoft.com/v1.0/users//sendMail"
          (Zh.message zh_client_no_sender [game_a])
          [("Authorization", "Bearer tok")] 30]
  /\ trace (Zh.send_promotions granting_world zh_client_no_sender [game_a])
     = network_calls (trace (Zh.send_promotions granting_world zh_client_no_sender
                               [game_a]))
       ++ [Log SUCCESS "Free game notification sent via Microsoft email" []].
Proof. repeat split. Qed.

(** ** A token response without an access token *)

(** C2, as the code has it.  When nothing is cached and the token endpoint's
    response has no [access_token]:
    the English mailer logs the failure with the provider's error code and
    description and returns without raising; the localized client raises a
    [RuntimeError] whose message ends in the provider's error description.
    Neither posts to [sendMail]. *)
Theorem C2_missing_token_aborts (w : world) (promotions : list PromotionGame) :
  (forall (self : En.MsGraphMailer) (app : ConfidentialClientApplication),
     fields_present self = true ->
     En._confidential_client self = Some app ->
     res_truthy (acquire_token_silent w app scopes) = false ->
     acquire_token_for_client w app scopes !! "access_token" = None ->
     En.send_free_game_digest w self promotions
       = ([AcquireTokenSilent app scopes;
           AcquireTokenForClient app scopes;
           Log ERROR "Failed to acquire Microsoft Graph access token."
             [("error", LAttr (acquire_token_for_client w app scopes !! "error"));
              ("description",
               LAttr (acquire_token_for_client w app scopes !! "error_description"))]],
          Returned tt)
     /\ existsb is_sendmail_post (trace (En.send_free_game_digest w self promotions))
        = false)
  /\
  (forall self : Zh.MicrosoftMailClient,
     promotions <> [] ->
     Zh.recipients self <> [] ->
     acquire_token_for_client w (zh_app self) scopes !! "access_token" = None ->
     Zh.send_promotions w self promotions
       = ([AcquireTokenForClient (zh_app self) scopes],
          Raised (RuntimeError
                    ("Failed to acquire Microsoft Graph token: "
                     +:+ fmt (acquire_token_for_client w (zh_app self) scopes
                              !! "error_description"))))
     /\ existsb is_sendmail_post (trace (Zh.send_promotions w self promotions))
        = false).
Proof.
  split.
  - intros self app Hfields Happ Hsilent Hnone.
    assert (En.send_free_game_digest w self promotions
            = ([AcquireTokenSilent app scopes;
                AcquireTokenForClient app scopes;
                Log ERROR "Failed to acquire Microsoft Graph access token."
                  [("error", LAttr (acquire_token_for_client w app scopes !! "error"));
                   ("description",
                    LAttr (acquire_token_for_client w app scopes
                           !! "error_description"))]],
               Returned tt)) as Heq.
    { rewrite send_free_game_digest_eq, Hfields, Happ.
      rewrite (en_acquire_token_eq w self app Happ).
      unfold acquired, acquisition_calls. rewrite Hsilent.
      simpl res_has. rewrite (dict_has_None _ _ Hnone), andb_false_r.
      unfold token_failure_log. simpl res_truthy. simpl res_get.
      rewrite !falsy_get. reflexivity. }
    rewrite Heq. split; reflexivity.
  - intros self Hps Hrs Hnone.
    assert (Zh.send_promotions w self promotions
            = ([AcquireTokenForClient (zh_app self) scopes],
               Raised (RuntimeError
                         ("Failed to acquire Microsoft Graph token: "
                          +:+ fmt (acquire_token_for_client w (zh_app self) scopes
                                   !! "error_description"))))) as Heq.
    { rewrite send_promotions_eq, zh_acquire_token_eq, Hnone.
      destruct promotions as [|p ps]; [contradiction|].
      destruct (Zh.recipients self) as [|r rs]; [contradiction|]. reflexivity. }
    rewrite Heq. split; reflexivity.
Qed.

(** Both notifiers against a token endpoint that refuses the credentials. *)
Lemma C2_missing_token_aborts_witness :
  En.send_free_game_digest refusing_world en_mailer [game_a]
    = ([AcquireTokenSilent en_app scopes;
        AcquireTokenForClient en_app scopes;
        Log ERROR "Failed to acquire Microsoft Graph access token."
          [("error", LAttr (Some "invalid_client"));
           ("description", LAttr (Some "bad secret"))]],
       Returned tt)
  /\
  Zh.send_promotions refusing_world zh_client [game_a]
    = ([AcquireTokenForClient (zh_app zh_client) scopes],
       Raised (RuntimeError "Failed to acquire Microsoft Graph token: bad secret")).
Proof.
  split.
  - apply (proj1 (C2_missing_token_aborts refusing_world [game_a])
             en_mailer en_app); reflexivity.
  - apply (proj2 (C2_missing_token_aborts refusing_world [game_a]) zh_client);
      [discriminate | discriminate | reflexivity].
Defined.

(** C2 does not hold of the English mailer: the token endpoint grants no
    access token, and the send returns normally instead of failing. *)
Lemma C2_counterexample :
  result (En.is_configured en_mailer) = Returned true
  /\ acquire_token_for_client refusing_world en_app scopes !! "access_token" = None
  /\ result (En.send_free_game_digest refusing_world en_mailer [game_a]) = Returned tt.
Proof. repeat split. Qed.

(** ** A [sendMail] response with a failure status *)

(** C3, as the code has it.  When the send reaches [sendMail] and the
    response is not a 2xx one: the English mailer logs the status code and
    the response body and returns without raising; the localized client
    raises the HTTP client's [HTTPStatusError], which carries the response
    (status code and body), and logs nothing about it. *)
Theorem C3_delivery_failure (w : world) (promotions : list PromotionGame) :
  (forall (self : En.MsGraphMailer) (tr : list event) (token : option string),
     result (En.is_configured self) = Returned true ->
     En._acquire_token w self = (tr, Returned token) ->
     truthy token = true ->
     is_success (en_response w self promotions token) = false ->
     En.send_free_game_digest w self promotions
       = (tr ++ [Post (en_target self) (En.payload self promotions)
                   (en_headers token) 30;
                 Log ERROR "Failed to send free game digest email."
                   [("status_code",
                     LInt (status_code (en_response w self promotions token)));
                    ("content",
                     LText (text (en_response w self promotions token)))]],
          Returned tt))
  /\
  (forall (self : Zh.MicrosoftMailClient) (tr : list event) (token : string),
     promotions <> [] ->
     Zh.recipients self <> [] ->
     Zh._acquire_token w self = (tr, Returned token) ->
     is_success (zh_response w self promotions token) = false ->
     Zh.send_promotions w self promotions
       = (tr ++ [Post (zh_target self) (Zh.message self promotions)
                   (zh_headers token) 30],
          Raised (HTTPStatusError (zh_response w self promotions token)))).
Proof.
  split.
  - intros self tr token Hconf Htok Htruthy Hfail.
    apply is_configured_true in Hconf. destruct Hconf as (_ & Hfields & app & Happ).
    rewrite send_free_game_digest_eq, Hfields, Happ, Htok, Htruthy.
    unfold delivery_log. rewrite Hfail. reflexivity.
  - intros self tr token Hps Hrs Htok Hfail.
    rewrite send_promotions_eq, Htok.
    destruct promotions as [|p ps]; [contradiction|].
    destruct (Zh.recipients self) as [|r rs]; [contradiction|].
    cbv zeta. rewrite Hfail. reflexivity.
Qed.

(** Both notifiers against a mail endpoint that answers 500. *)
Lemma C3_delivery_failure_witness :
  En.send_free_game_digest failing_world en_mailer [game_a]
    = ([AcquireTokenSilent en_app scopes;
        AcquireTokenForClient en_app scopes] ++
       [Post (en_target en_mailer) (En.payload en_mailer [game_a])
          (en_headers (Some "tok")) 30;
        Log ERROR "Failed to send free game digest email."
          [("status_code", LInt 500); ("content", LText "boom")]],
       Returned tt)
  /\
  Zh.send_promotions failing_world zh_client [game_a]
    = ([AcquireTokenForClient (zh_app zh_client) scopes] ++
       [Post (zh_target zh_client) (Zh.message zh_client [game_a])
          (zh_headers "tok") 30],
       Raised (HTTPStatusError {| status_code := 500; text := "boom" |})).
Proof.
  split.
  - apply (proj1 (C3_delivery_failure failing_world [game_a])
             en_mailer _ (Some "tok")); reflexivity.
  - apply (proj2 (C3_delivery_failure failing_world [game_a]) zh_client _ "tok");
      [discriminate | discriminate | reflexivity | reflexivity].
Defined.

(** C3 does not hold of either variant: on a 500 response the English mailer
    returns normally, and the localized client, which raises, writes no log
    record. *)
Lemma C3_counterexample :
  status_code (en_response failing_world en_mailer [game_a] (Some "tok")) = 500%Z
  /\ result (En.send_free_game_digest failing_world en_mailer [game_a]) = Returned tt
  /\ existsb is_log (trace (Zh.send_promotions failing_world zh_client [game_a]))
     = false.
Proof. repeat split. Qed.

(** ** Sends of an empty promotions sequence *)

(** C4, as the code has it.  The localized client, whatever its
    configuration, treats an empty sequence as a no-op: one debug record, a
    normal return, no call to the token endpoint or to [sendMail].  The
    English mailer does not skip: once configured and holding a token it posts
    a message whose body is the fixed "no free games" paragraph. *)
Theorem C4_empty_promotions (w : world) :
  (forall self : Zh.MicrosoftMailClient,
     Zh.send_promotions w self []
       = ([Log DEBUG "No promotions to send, skipping email notification" []],
          Returned tt))
  /\
  (forall (self : En.MsGraphMailer) (tr : list event) (token : option string),
     result (En.is_configured self) = Returned true ->
     En._acquire_token w self = (tr, Returned token) ->
     truthy token = true ->
     En.send_free_game_digest w self []
       = (tr ++ [Post (en_target self) (En.payload self []) (en_headers token) 30;
                 delivery_log (en_response w self [] token)],
          Returned tt)
     /\ at_path ["message"; "body"; "content"] (En.payload self [])
        = Some (JString "<p>No free games detected from Epic Store at this time.</p>")).
Proof.
  split.
  - intros self. reflexivity.
  - intros self tr token Hconf Htok Htruthy.
    apply is_configured_true in Hconf. destruct Hconf as (_ & Hfields & app & Happ).
    rewrite send_free_game_digest_eq, Hfields, Happ, Htok, Htruthy.
    split; reflexivity.
Qed.

(** Both notifiers, fully configured, with nothing to send. *)
Lemma C4_empty_promotions_witness :
  Zh.send_promotions granting_world zh_client []
    = ([Log DEBUG "No promotions to send, skipping email notification" []],
       Returned tt)
  /\
  En.send_free_game_digest granting_world en_mailer []
    = ([AcquireTokenSilent en_app scopes; AcquireTokenForClient en_app scopes] ++
       [Post (en_target en_mailer) (En.payload en_mailer []) (en_headers (Some "tok")) 30;
        delivery_log (en_response granting_world en_mailer [] (Some "tok"))],
       Returned tt).
Proof.
  split.
  - apply (proj1 (C4_empty_promotions granting_world) zh_client).
  - apply (proj2 (C4_empty_promotions granting_world) en_mailer _ (Some "tok"));
      reflexivity.
Defined.

(** C4 does not hold of the English mailer: under a valid configuration an
    empty sequence still leads to a token request and a POST to [sendMail],
    and no debug record is written. *)
Lemma C4_counterexample :
  result (En.is_configured en_mailer) = Returned true
  /\ network_calls (trace (En.send_free_game_digest granting_world en_mailer []))
     = [AcquireTokenForClient en_app scopes;
        Post "https://graph.microsoft.com/v1.0/users/me@example.org/sendMail"
          (En.payload en_mailer []) [("Authorization", "Bearer tok")] 30]
  /\ trace (En.send_free_game_digest granting_world en_mailer [])
     = [AcquireTokenSilent en_app scopes;
        AcquireTokenForClient en_app scopes;
        Post "https://graph.microsoft.com/v1.0/users/me@example.org/sendMail"
          (En.payload en_mailer []) [("Authorization", "Bearer tok")] 30;
        Log SUCCESS "Free game digest email sent via Microsoft Graph." []].
Proof. repeat split. Qed.

(** ** The posted payload *)

Lemma existsb_false_elem {A : Type} (f : A -> bool) (l : list A) (x : A) :
  existsb f l = false -> x ∈ l -> f x = false.
Proof.
  intros Hl Hx. apply list_elem_of_In in Hx.
  destruct (f x) eqn:Hfx; [|reflexivity].
  assert (existsb f l = true) as Ht by (apply existsb_exists; eauto).
  congruence.
Qed.

Lemma fields_present_addresses (self : En.MsGraphMailer) :
  fields_present self = true ->
  exists rcp snd, En.recipient self = Some rcp /\ En.sender self = Some snd.
Proof.
  unfold fields_present, all. simpl. intros H.
  repeat (apply andb_prop in H; destruct H as [? H]).
  destruct (truthy_Some (En.recipient self)) as (rcp & Hr & _); [assumption|].
  destruct (truthy_Some (En.sender self)) as (snd & Hs & _); [assumption|].
  eauto.
Qed.

(** C5, as the code has it.  Whatever the English mailer posts to
    [sendMail] is an object with the keys [message] and [saveToSentItems], in
    which [message] holds the subject, an HTML body whose content is the
    rendered list, a [toRecipients] array with exactly one entry, the
    configured recipient, and a [from] entry with the configured sender.
    Whatever the localized client posts is an object with the single key
    [message], holding the subject, an HTML body and a [toRecipients] array
    with one entry per configured recipient, in order; it has no [from] entry
    and no [saveToSentItems] key. *)
Theorem C5_posted_payload (w : world) (promotions : list PromotionGame) :
  (forall (self : En.MsGraphMailer) (target : string) (p : json)
          (headers : list (string * string)) (timeout : Z),
     Post target p headers timeout ∈ trace (En.send_free_game_digest w self promotions) ->
     exists (rcp snd : string) (saved : json),
       En.recipient self = Some rcp /\ En.sender self = Some snd /\
       p = JObject
             [ ("message",
                JObject
                  [ ("subject", JString "Epic Store - Weekly Free Games Update");
                    ("body",
                     JObject [ ("contentType", JString "HTML");
                               ("content", JString (En._build_body promotions)) ]);
                    ("toRecipients",
                     JArray [JObject [("emailAddress",
                                       JObject [("address", JString rcp)])]]);
                    ("from",
                     JObject [("emailAddress", JObject [("address", JString snd)])]) ]);
               ("saveToSentItems", saved) ])
  /\
  (forall (self : Zh.MicrosoftMailClient) (target : string) (p : json)
          (headers : list (string * string)) (timeout : Z),
     Post target p headers timeout ∈ trace (Zh.send_promotions w self promotions) ->
     p = JObject
           [ ("message",
              JObject
                [ ("subject", JString "Epic 免费游戏更新");
                  ("body",
                   JObject [ ("contentType", JString "HTML");
                             ("content", JString (Zh.html_body promotions)) ]);
                  ("toRecipients",
                   JArray
                     (map (fun r => JObject [("emailAddress",
                                              JObject [("address", JString r)])])
                        (Zh.recipients self))) ]) ]).
Proof.
  split.
  - intros self target p headers timeout.
    rewrite send_free_game_digest_eq.
    destruct (fields_present self) eqn:Hfields.
    2:{ intros Hin. apply list_elem_of_singleton in Hin. discriminate. }
    destruct (fields_present_addresses self Hfields) as (rcp & snd & Hr & Hs).
    destruct (En._confidential_client self) as [app|].
    2:{ intros Hin. apply list_elem_of_singleton in Hin. discriminate. }
    pose proof (en_acquire_token_no_post w self) as Hno.
    destruct (En._acquire_token w self) as [tr [token|e]]; simpl in Hno.
    2:{ intros Hin. apply (existsb_false_elem _ _ _ Hno) in Hin. discriminate. }
    destruct (truthy token).
    2:{ intros Hin. apply (existsb_false_elem _ _ _ Hno) in Hin. discriminate. }
    unfold trace; simpl fst. intros Hin.
    apply elem_of_app in Hin. destruct Hin as [Hin|Hin].
    { apply (existsb_false_elem _ _ _ Hno) in Hin. discriminate. }
    apply elem_of_cons in Hin. destruct Hin as [Heq|Hin].
    + injection Heq as -> -> -> ->.
      exists rcp, snd, (JString "true"). unfold En.payload, recipient_entry.
      rewrite Hr, Hs. repeat split.
    + apply list_elem_of_singleton in Hin. unfold delivery_log in Hin.
      destruct (is_success _); discriminate.
  - intros self target p headers timeout.
    rewrite send_promotions_eq.
    destruct promotions as [|g gs].
    { intros Hin. apply list_elem_of_singleton in Hin. discriminate. }
    destruct (Zh.recipients self) as [|r rs] eqn:Hrs.
    { intros Hin. apply list_elem_of_singleton in Hin. discriminate. }
    rewrite zh_acquire_token_eq.
    destruct (acquire_token_for_client w (zh_app self) scopes !! "access_token")
      as [token|].
    2:{ intros Hin. apply list_elem_of_singleton in Hin. discriminate. }
    unfold trace; simpl fst. intros Hin.
    apply elem_of_cons in Hin. destruct Hin as [Heq|Hin]; [discriminate|].
    apply elem_of_cons in Hin. destruct Hin as [Heq|Hin].
    + injection Heq as -> -> -> ->.
      unfold Zh.message, recipient_entry. rewrite Hrs. reflexivity.
    + destruct (is_success _).
      * apply list_elem_of_singleton in Hin. discriminate.
      * apply elem_of_nil in Hin. contradiction.
Qed.

(** The payloads of a send of Game A and Game B. *)
Lemma C5_posted_payload_witness :
  (exists (rcp snd : string) (saved : json),
     En.recipient en_mailer = Some rcp /\ En.sender en_mailer = Some snd /\
     En.payload en_mailer [game_a; game_b]
       = JObject
           [ ("message",
              JObject
                [ ("subject", JString "Epic Store - Weekly Free Games Update");
                  ("body",
                   JObject [ ("contentType", JString "HTML");
                             ("content", JString (En._build_body [game_a; game_b])) ]);
                  ("toRecipients",
                   JArray [JObject [("emailAddress",
                                     JObject [("address", JString rcp)])]]);
                  ("from",
                   JObject [("emailAddress", JObject [("address", JString snd)])]) ]);
             ("saveToSentItems", saved) ])
  /\
  Zh.message zh_client [game_a; game_b]
    = JObject
        [ ("message",
           JObject
             [ ("subject", JString "Epic 免费游戏更新");
               ("body",
                JObject [ ("contentType", JString "HTML");
                          ("content", JString (Zh.html_body [game_a; game_b])) ]);
               ("toRecipients",
                JArray
                  (map (fun r => JObject [("emailAddress",
                                           JObject [("address", JString r)])])
                     ["you@example.org"; "them@example.org"])) ]) ].
Proof.
  split.
  - apply (proj1 (C5_posted_payload granting_world [game_a; game_b]) en_mailer
             (en_target en_mailer) _ (en_headers (Some "tok")) 30%Z).
    vm_compute. do 2 right. left.
  - apply (proj2 (C5_posted_payload granting_world [game_a; game_b]) zh_client
             (zh_target zh_client) _ (zh_headers "tok") 30%Z).
    vm_compute. right. left.
Defined.

(** C5 does not hold of what the code posts: the payload of the localized
    client has neither a [saveToSentItems] key nor a [from] entry, and in the
    payload of the English mailer [saveToSentItems] is the text ["true"], not
    the boolean. *)
Lemma C5_counterexample :
  trace (Zh.send_promotions granting_world zh_client [game_a])
    = [AcquireTokenForClient (zh_app zh_client) scopes;
       Post (zh_target zh_client) (Zh.message zh_client [game_a]) (zh_headers "tok") 30;
       Log SUCCESS "Free game notification sent via Microsoft email" []]
  /\ at_path ["saveToSentItems"] (Zh.message zh_client [game_a]) = None
  /\ at_path ["message"; "from"] (Zh.message zh_client [game_a]) = None
  /\ at_path ["saveToSentItems"] (En.payload en_mailer [game_a]) = Some (JString "true").
Proof. repeat split. Qed.

(** ** The rendered body *)

(** *** Counting the list items of a body

    The renderers insert titles, urls and descriptions as they are.  When
    these carry no tag opener, the text [<li>] occurs in the body once per
    promotion. *)

Lemma append_assoc (a b c : string) : (a +:+ b) +:+ c = a +:+ (b +:+ c).
Proof.
  induction a as [|x a IH]; [reflexivity|].
  push_append. rewrite IH. reflexivity.
Qed.

Lemma append_nil_r (a : string) : a +:+ "" = a.
Proof.
  induction a as [|x a IH]; [reflexivity|].
  push_append. rewrite IH. reflexivity.
Qed.

Lemma concat_cons (x : string) (xs : list string) :
  String.concat "" (x :: xs) = x +:+ String.concat "" xs.
Proof. destruct xs; simpl; [rewrite append_nil_r|]; reflexivity. Qed.

Lemma occurrences_skip (a b : string) :
  markup_free a = true ->
  occurrences "<li>" (a +:+ b) = occurrences "<li>" b.
Proof.
  unfold markup_free. induction a as [|x a IH]; [reflexivity|].
  change (has_char "<" (String x a)) with (Ascii.eqb "<" x || has_char "<" a).
  intros H. apply negb_true_iff, orb_false_elim in H. destruct H as [Hx Ha].
  push_append.
  change (occurrences "<li>" (String x (a +:+ b)))
    with ((if Ascii.eqb "<" x && starts_with "li>" (a +:+ b) then 1 else 0)
          + occurrences "<li>" (a +:+ b)).
  rewrite Hx. apply IH. rewrite Ha. reflexivity.
Qed.

Lemma occurrences_game_item (g : PromotionGame) (rest : string) :
  markup_free (title g) = true -> markup_free (url g) = true ->
  occurrences "<li>" (En.game_item g +:+ rest) = S (occurrences "<li>" rest).
Proof.
  intros Ht Hu. unfold En.game_item, dquote. rewrite !append_assoc.
  push_append. simpl occurrences.
  rewrite (occurrences_skip _ _ Ht). push_append. simpl occurrences.
  rewrite (occurrences_skip _ _ Hu). push_append. simpl occurrences.
  rewrite (occurrences_skip _ _ Hu). push_append. simpl occurrences.
  reflexivity.
Qed.

Lemma occurrences_promotion_item (g : PromotionGame) (rest : string) :
  markup_free (title g) = true -> markup_free (url g) = true ->
  markup_free (description g) = true ->
  occurrences "<li>" (Zh.promotion_item g +:+ rest) = S (occurrences "<li>" rest).
Proof.
  intros Ht Hu Hd. unfold Zh.promotion_item, dquote. rewrite !append_assoc.
  push_append. simpl occurrences.
  rewrite (occurrences_skip _ _ Hu). push_append. simpl occurrences.
  rewrite (occurrences_skip _ _ Ht). push_append. simpl occurrences.
  rewrite (occurrences_skip _ _ Hd). push_append. simpl occurrences.
  reflexivity.
Qed.

Lemma occurrences_items (item : PromotionGame -> string) (ok : PromotionGame -> Prop)
    (gs : list PromotionGame) (rest : string) :
  (forall g tail, ok g ->
     occurrences "<li>" (item g +:+ tail) = S (occurrences "<li>" tail)) ->
  Forall ok gs ->
  occurrences "<li>" (String.concat "" (map item gs) +:+ rest)
    = length gs + occurrences "<li>" rest.
Proof.
  intros Hitem Hall. induction Hall as [|g gs Hg Hgs IH].
  - reflexivity.
  - change (map item (g :: gs)) with (item g :: map item gs).
    rewrite concat_cons, append_assoc, (Hitem _ _ Hg), IH. reflexivity.
Qed.

(** Without markup in the fields, [<li>] occurs once per promotion. *)
Lemma li_count_markup_free (promotions : list PromotionGame) :
  Forall (fun g => markup_free (title g) = true /\ markup_free (url g) = true
                   /\ markup_free (description g) = true) promotions ->
  (promotions <> [] ->
   occurrences "<li>" (En._build_body promotions) = length promotions)
  /\ occurrences "<li>" (Zh.html_body promotions) = length promotions.
Proof.
  intros Hall. split.
  - intros Hne.
    replace (En._build_body promotions)
      with ("<p>Here are the current free games on Epic Store:</p><ul>"
            +:+ String.concat "" (map En.game_item promotions) +:+ "</ul>")
      by (destruct promotions; [contradiction|reflexivity]).
    push_append. simpl occurrences.
    rewrite (occurrences_items En.game_item _ promotions "</ul>"
               (fun g tail H => occurrences_game_item g tail (proj1 H) (proj1 (proj2 H)))
               Hall).
    simpl. lia.
  - unfold Zh.html_body. cbv zeta.
    rewrite !concat_cons. push_append. simpl occurrences.
    rewrite (occurrences_items Zh.promotion_item _ promotions _
               (fun g tail H => occurrences_promotion_item g tail (proj1 H)
                                  (proj1 (proj2 H)) (proj2 (proj2 H)))
               Hall).
    simpl. lia.
Qed.

(** *** Reading the list items back from a body *)






















(** C7.  For the empty sequence [_build_body] returns the fixed paragraph
    saying that no free games were detected: not the empty string, and not a
    list. *)
Theorem C7_no_free_games_sentence :
  En._build_body [] = "<p>No free games detected from Epic Store at this time.</p>"
  /\ En._build_body [] <> ""
  /\ occurrences "<ul>" (En._build_body []) = 0
  /\ occurrences "<li>" (En._build_body []) = 0.
Proof. repeat split. discriminate. Qed.

(** ** The order of the acquisition attempts *)

(** C8, as the code has it.  The English acquirer first asks for a silent
    acquisition and calls the token endpoint only when that attempt yields
    nothing: its calls are the silent one alone, or the silent one followed by
    the client-credentials request, and whatever follows is log records.  The
    acquirer of the localized client makes no silent attempt: every
    acquisition is one client-credentials request. *)
Theorem C8_acquisition_order (w : world) :
  (forall (self : En.MsGraphMailer) (app : ConfidentialClientApplication),
     En._confidential_client self = Some app ->
     exists logs : list event,
       forallb is_log logs = true
       /\ trace (En._acquire_token w self)
          = (if res_truthy (acquire_token_silent w app scopes)
             then [AcquireTokenSilent app scopes]
             else [AcquireTokenSilent app scopes; AcquireTokenForClient app scopes])
            ++ logs)
  /\
  (forall self : Zh.MicrosoftMailClient,
     trace (Zh._acquire_token w self) = [AcquireTokenForClient (zh_app self) scopes]).
Proof.
  split.
  - intros self app Happ. rewrite (en_acquire_token_eq w self app Happ).
    unfold acquisition_calls.
    destruct (res_truthy (acquired w app) && res_has "access_token" (acquired w app)).
    + exists []. split; [reflexivity|].
      destruct (res_truthy (acquire_token_silent w app scopes));
        unfold trace; simpl; reflexivity.
    + exists [token_failure_log (acquired w app)]. split; [reflexivity|].
      destruct (res_truthy (acquire_token_silent w app scopes)); reflexivity.
  - intros self. rewrite zh_acquire_token_eq.
    destruct (acquire_token_for_client w (zh_app self) scopes !! "access_token");
      reflexivity.
Qed.

(** Both acquirers where nothing is cached. *)
Lemma C8_acquisition_order_witness :
  (exists logs : list event,
     forallb is_log logs = true
     /\ trace (En._acquire_token granting_world en_mailer)
        = (if res_truthy (acquire_token_silent granting_world en_app scopes)
           then [AcquireTokenSilent en_app scopes]
           else [AcquireTokenSilent en_app scopes; AcquireTokenForClient en_app scopes])
          ++ logs)
  /\ trace (Zh._acquire_token granting_world zh_client)
     = [AcquireTokenForClient (zh_app zh_client) scopes].
Proof.
  split.
  - apply (proj1 (C8_acquisition_order granting_world) en_mailer en_app).
    reflexivity.
  - apply (proj2 (C8_acquisition_order granting_world) zh_client).
Defined.

(** C8 does not hold of the localized client: its acquirer goes to the
    token endpoint at once, and no silent attempt is part of a send. *)
Lemma C8_counterexample :
  trace (Zh._acquire_token granting_world zh_client)
    = [AcquireTokenForClient (zh_app zh_client) scopes]
  /\ existsb is_silent_attempt (trace (Zh._acquire_token granting_world zh_client))
     = false
  /\ existsb is_silent_attempt
       (trace (Zh.send_promotions granting_world zh_client [game_a])) = false.
Proof. repeat split. Qed.

(** ** The configuration validator *)

(** C9.  For a mailer built from any five values, [is_configured] returns,
    without raising, whether every one of them is present and non-empty.
    When it returns true it logs nothing; when it returns false it logs one
    warning whose [missing_configs] are the names of exactly those fields that
    are [None] or empty, in declaration order. *)
Theorem C9_is_configured (cid sec ten snd rcp : option string) :
  result (En.is_configured (En.__init__ cid sec ten snd rcp))
    = Returned (truthy ten && truthy cid && truthy sec && truthy snd && truthy rcp)
  /\ trace (En.is_configured (En.__init__ cid sec ten snd rcp))
     = if truthy ten && truthy cid && truthy sec && truthy snd && truthy rcp
       then []
       else [Log WARNING
               "Microsoft Graph mailer is not fully configured; skip sending digest."
               [("missing_configs",
                 LNames ((if truthy cid then [] else ["MS_CLIENT_ID"])
                         ++ (if truthy sec then [] else ["MS_CLIENT_SECRET"])
                         ++ (if truthy ten then [] else ["MS_TENANT_ID"])
                         ++ (if truthy snd then [] else ["MS_SENDER_ADDRESS"])
                         ++ (if truthy rcp then [] else ["MS_RECIPIENT_ADDRESS"])))]].
Proof.
  unfold En.is_configured, En.missing_configs, En.named_configs, En.__init__, all.
  simpl.
  destruct (truthy cid), (truthy sec), (truthy ten), (truthy snd), (truthy rcp);
    split; reflexivity.
Qed.

(** ** The assertion of the English acquirer *)

(** C10.  Whenever [is_configured] returns true the confidential client
    exists, so the assertion at the head of [_acquire_token] holds, and no
    send of the English mailer ends in an [AssertionError]. *)
Theorem C10_assertion_holds (w : world) (self : En.MsGraphMailer)
    (promotions : list PromotionGame) :
  (result (En.is_configured self) = Returned true ->
   is_Some (En._confidential_client self)
   /\ raises_assertion (En._acquire_token w self) = false)
  /\ raises_assertion (En.send_free_game_digest w self promotions) = false.
Proof.
  split.
  - intros Hconf. apply is_configured_true in Hconf.
    destruct Hconf as (_ & _ & app & Happ). split; [rewrite Happ; eauto|].
    rewrite (en_acquire_token_eq w self app Happ).
    destruct (res_truthy (acquired w app) && res_has "access_token" (acquired w app));
      reflexivity.
  - rewrite send_free_game_digest_eq.
    destruct (fields_present self); [|reflexivity].
    destruct (En._confidential_client self) as [app|] eqn:Happ; [|reflexivity].
    rewrite (en_acquire_token_eq w self app Happ).
    destruct (res_truthy (acquired w app) && res_has "access_token" (acquired w app));
      [|reflexivity].
    destruct (truthy (res_get "access_token" (acquired w app))); reflexivity.
Qed.

(** A fully configured mailer. *)
Lemma C10_assertion_holds_witness :
  result (En.is_configured en_mailer) = Returned true
  /\ is_Some (En._confidential_client en_mailer)
  /\ raises_assertion (En._acquire_token granting_world en_mailer) = false.
Proof.
  split; [reflexivity|].
  apply (proj1 (C10_assertion_holds granting_world en_mailer [game_a])).
  reflexivity.
Defined.

(** * Further properties of the two notifiers *)

(** ** Path analysis *)

Lemma dict_truthy_lookup (k v : string) (d : gmap string string) :
  d !! k = Some v -> dict_truthy d = true.
Proof.
  intros H. unfold dict_truthy. apply bool_decide_eq_true.
  intros ->. rewrite lookup_empty in H. discriminate.
Qed.

Lemma dict_has_Some (k v : string) (d : gmap string string) :
  d !! k = Some v -> dict_has k d = true.
Proof.
  intros H. unfold dict_has. apply bool_decide_eq_true. rewrite H. eauto.
Qed.

(** Splits a send of the English mailer into its paths, down to concrete
    lists of events. *)
Ltac en_paths w self :=
  let client := fresh "client" in
  let Hclient := fresh "Hclient" in
  rewrite send_free_game_digest_eq;
  destruct (fields_present self) eqn:?;
  [ destruct (En._confidential_client self) as [client|] eqn:Hclient;
    [ rewrite (en_acquire_token_eq w self client Hclient);
      unfold acquisition_calls;
      destruct (res_truthy (acquired w client)
                && res_has "access_token" (acquired w client)) eqn:?;
      [ destruct (truthy (res_get "access_token" (acquired w client))) eqn:? | ];
      destruct (res_truthy (acquire_token_silent w client scopes)) eqn:?
    | ]
  | ].

(** Splits a send of the localized client into its paths. *)
Ltac zh_paths w self promotions :=
  rewrite send_promotions_eq;
  destruct promotions as [|? ?];
  [ | destruct (Zh.recipients self) as [|? ?] eqn:?;
      [ | rewrite zh_acquire_token_eq;
          destruct (acquire_token_for_client w (zh_app self) scopes !! "access_token")
            as [?|] eqn:? ] ].

(** ** No retries *)

(** X1.  A send of either notifier calls each collaborator at most once:
    at most one silent attempt, one token request and one POST, and it writes
    at most one log record.  The localized client never makes a silent
    attempt. *)
Theorem X1_at_most_one_call (w : world) (promotions : list PromotionGame) :
  (forall self : En.MsGraphMailer,
     count_events is_silent_attempt (trace (En.send_free_game_digest w self promotions)) <= 1
     /\ count_events is_token_request (trace (En.send_free_game_digest w self promotions)) <= 1
     /\ count_events is_sendmail_post (trace (En.send_free_game_digest w self promotions)) <= 1
     /\ count_events is_log (trace (En.send_free_game_digest w self promotions)) <= 1)
  /\
  (forall self : Zh.MicrosoftMailClient,
     count_events is_silent_attempt (trace (Zh.send_promotions w self promotions)) = 0
     /\ count_events is_token_request (trace (Zh.send_promotions w self promotions)) <= 1
     /\ count_events is_sendmail_post (trace (Zh.send_promotions w self promotions)) <= 1
     /\ count_events is_log (trace (Zh.send_promotions w self promotions)) <= 1).
Proof.
  split; intros self.
  - en_paths w self; unfold delivery_log;
      try destruct (is_success _); unfold count_events; simpl; lia.
  - zh_paths w self promotions; cbv zeta;
      try destruct (is_success _); unfold count_events; simpl; lia.
Qed.

(** ** Accepted messages *)

(** X2.  When the send reaches [sendMail] and the response status lies in
    200..299, either notifier returns normally and the trace ends in the POST
    followed by exactly one success record. *)
Theorem X2_accepted_message (w : world) (promotions : list PromotionGame) :
  (forall (self : En.MsGraphMailer) (tr : list event) (token : option string),
     result (En.is_configured self) = Returned true ->
     En._acquire_token w self = (tr, Returned token) ->
     truthy token = true ->
     (200 <= status_code (en_response w self promotions token) <= 299)%Z ->
     En.send_free_game_digest w self promotions
       = (tr ++ [Post (en_target self) (En.payload self promotions)
                   (en_headers token) 30;
                 Log SUCCESS "Free game digest email sent via Microsoft Graph." []],
          Returned tt)
     /\ count_events is_success_log (trace (En.send_free_game_digest w self promotions))
        = 1)
  /\
  (forall (self : Zh.MicrosoftMailClient) (tr : list event) (token : string),
     promotions <> [] ->
     Zh.recipients self <> [] ->
     Zh._acquire_token w self = (tr, Returned token) ->
     (200 <= status_code (zh_response w self promotions token) <= 299)%Z ->
     Zh.send_promotions w self promotions
       = (tr ++ [Post (zh_target self) (Zh.message self promotions)
                   (zh_headers token) 30;
                 Log SUCCESS "Free game notification sent via Microsoft email" []],
          Returned tt)
     /\ count_events is_success_log (trace (Zh.send_promotions w self promotions)) = 1).
Proof.
  split.
  - intros self tr token Hconf Htok Htruthy Hstatus.
    assert (is_success (en_response w self promotions token) = true) as Hok.
    { unfold is_success. apply andb_true_intro. split; apply Z.leb_le; lia. }
    apply is_configured_true in Hconf. destruct Hconf as (_ & Hfields & app & Happ).
    pose proof (en_acquire_token_eq w self app Happ) as Heq. rewrite Htok in Heq.
    rewrite send_free_game_digest_eq, Hfields, Happ, Htok, Htruthy.
    unfold delivery_log. rewrite Hok. split; [reflexivity|].
    unfold trace, count_events. simpl fst. rewrite List.filter_app, length_app.
    destruct (res_truthy (acquired w app) && res_has "access_token" (acquired w app));
      injection Heq as -> _; unfold acquisition_calls;
      destruct (res_truthy (acquire_token_silent w app scopes)); reflexivity.
  - intros self tr token Hps Hrs Htok Hstatus.
    assert (is_success (zh_response w self promotions token) = true) as Hok.
    { unfold is_success. apply andb_true_intro. split; apply Z.leb_le; lia. }
    pose proof (zh_acquire_token_eq w self) as Heq. rewrite Htok in Heq.
    rewrite send_promotions_eq, Htok.
    destruct promotions as [|p ps]; [contradiction|].
    destruct (Zh.recipients self) as [|r rs]; [contradiction|].
    cbv zeta. rewrite Hok. split; [reflexivity|].
    destruct (acquire_token_for_client w (zh_app self) scopes !! "access_token");
      injection Heq as -> _; reflexivity.
Qed.

(** Both notifiers against a mail endpoint that answers 202. *)
Lemma X2_accepted_message_witness :
  En.send_free_game_digest granting_world en_mailer [game_a]
    = ([AcquireTokenSilent en_app scopes; AcquireTokenForClient en_app scopes] ++
       [Post (en_target en_mailer) (En.payload en_mailer [game_a])
          (en_headers (Some "tok")) 30;
        Log SUCCESS "Free game digest email sent via Microsoft Graph." []],
       Returned tt)
  /\
  Zh.send_promotions granting_world zh_client [game_a]
    = ([AcquireTokenForClient (zh_app zh_client) scopes] ++
       [Post (zh_target zh_client) (Zh.message zh_client [game_a]) (zh_headers "tok") 30;
        Log SUCCESS "Free game notification sent via Microsoft email" []],
       Returned tt).
Proof.
  split.
  - apply (proj1 (X2_accepted_message granting_world [game_a])
             en_mailer _ (Some "tok")); try reflexivity.
    simpl; lia.
  - apply (proj2 (X2_accepted_message granting_world [game_a]) zh_client _ "tok");
      try discriminate; try reflexivity.
    simpl; lia.
Defined.

(** ** The request sent to [sendMail] *)

Lemma acquisition_calls_elem (w : world) (app : ConfidentialClientApplication)
    (e : event) :
  e ∈ acquisition_calls w app -> is_silent_attempt e || is_token_request e = true.
Proof.
  unfold acquisition_calls. intros Hin.
  apply elem_of_cons in Hin. destruct Hin as [->|Hin]; [reflexivity|].
  destruct (res_truthy (acquire_token_silent w app scopes)).
  - apply elem_of_nil in Hin. contradiction.
  - apply list_elem_of_singleton in Hin. subst e. reflexivity.
Qed.

(** X3.  Whatever either notifier posts goes to the [sendMail] address of
    the configured sender, with a 30 second timeout and a single header, the
    bearer authorization with the access token that the acquisition yielded;
    in the English mailer that token is never empty. *)
Theorem X3_sendmail_request (w : world) (promotions : list PromotionGame) :
  (forall (self : En.MsGraphMailer) (target : string) (p : json)
          (headers : list (string * string)) (timeout : Z),
     Post target p headers timeout ∈ trace (En.send_free_game_digest w self promotions) ->
     exists (snd token : string) (app : ConfidentialClientApplication),
       En.sender self = Some snd
       /\ En._confidential_client self = Some app
       /\ res_get "access_token" (acquired w app) = Some token
       /\ token <> ""
       /\ target = "https://graph.microsoft.com/v1.0/users/" +:+ snd +:+ "/sendMail"
       /\ headers = [("Authorization", "Bearer " +:+ token)]
       /\ timeout = 30%Z)
  /\
  (forall (self : Zh.MicrosoftMailClient) (target : string) (p : json)
          (headers : list (string * string)) (timeout : Z),
     Post target p headers timeout ∈ trace (Zh.send_promotions w self promotions) ->
     exists token : string,
       acquire_token_for_client w (zh_app self) scopes !! "access_token" = Some token
       /\ target = "https://graph.microsoft.com/v1.0/users/" +:+ Zh.sender self
                   +:+ "/sendMail"
       /\ headers = [("Authorization", "Bearer " +:+ token)]
       /\ timeout = 30%Z).
Proof.
  split.
  - intros self target p headers timeout.
    rewrite send_free_game_digest_eq.
    destruct (fields_present self) eqn:Hfields.
    2:{ intros Hin. apply list_elem_of_singleton in Hin. discriminate. }
    destruct (fields_present_addresses self Hfields) as (rcp & snd & _ & Hs).
    destruct (En._confidential_client self) as [app|] eqn:Happ.
    2:{ intros Hin. apply list_elem_of_singleton in Hin. discriminate. }
    rewrite (en_acquire_token_eq w self app Happ).
    destruct (res_truthy (acquired w app) && res_has "access_token" (acquired w app)).
    2:{ unfold trace; cbv beta iota delta [fst]. intros Hin.
        apply elem_of_app in Hin. destruct Hin as [Hin|Hin].
        - apply acquisition_calls_elem in Hin. discriminate.
        - apply list_elem_of_singleton in Hin. discriminate. }
    destruct (truthy (res_get "access_token" (acquired w app))) eqn:Htruthy.
    2:{ intros Hin. apply acquisition_calls_elem in Hin. discriminate. }
    destruct (truthy_Some _ Htruthy) as (token & Htoken & Hne).
    unfold trace; cbv beta iota delta [fst]. intros Hin.
    apply elem_of_app in Hin. destruct Hin as [Hin|Hin].
    { apply acquisition_calls_elem in Hin. discriminate. }
    apply elem_of_cons in Hin. destruct Hin as [Heq|Hin].
    + injection Heq as -> -> -> ->.
      exists snd, token, app. rewrite Htoken. unfold en_target, en_headers.
      rewrite Hs. repeat split; try reflexivity. exact Hne.
    + apply list_elem_of_singleton in Hin. unfold delivery_log in Hin.
      destruct (is_success _); discriminate.
  - intros self target p headers timeout.
    zh_paths w self promotions; unfold trace; cbv beta iota delta [fst]; intros Hin.
    + apply list_elem_of_singleton in Hin. discriminate.
    + apply list_elem_of_singleton in Hin. discriminate.
    + apply elem_of_cons in Hin. destruct Hin as [Heq|Hin]; [discriminate|].
      apply elem_of_cons in Hin. destruct Hin as [Heq|Hin].
      * injection Heq as -> -> -> ->. eexists. repeat split; reflexivity.
      * destruct (is_success _).
        -- apply list_elem_of_singleton in Hin. discriminate.
        -- apply elem_of_nil in Hin. contradiction.
    + apply list_elem_of_singleton in Hin. discriminate.
Qed.

(** The requests of a send of Game A by either notifier. *)
Lemma X3_sendmail_request_witness :
  (exists (snd token : string) (app : ConfidentialClientApplication),
     En.sender en_mailer = Some snd
     /\ En._confidential_client en_mailer = Some app
     /\ res_get "access_token" (acquired granting_world app) = Some token
     /\ token <> ""
     /\ en_target en_mailer
        = "https://graph.microsoft.com/v1.0/users/" +:+ snd +:+ "/sendMail"
     /\ en_headers (Some "tok") = [("Authorization", "Bearer " +:+ token)]
     /\ 30%Z = 30%Z)
  /\
  (exists token : string,
     acquire_token_for_client granting_world (zh_app zh_client) scopes
       !! "access_token" = Some token
     /\ zh_target zh_client
        = "https://graph.microsoft.com/v1.0/users/" +:+ Zh.sender zh_client
          +:+ "/sendMail"
     /\ zh_headers "tok" = [("Authorization", "Bearer " +:+ token)]
     /\ 30%Z = 30%Z).
Proof.
  split.
  - apply (proj1 (X3_sendmail_request granting_world [game_a]) en_mailer
             (en_target en_mailer) (En.payload en_mailer [game_a])
             (en_headers (Some "tok")) 30%Z).
    vm_compute. do 2 right. left.
  - apply (proj2 (X3_sendmail_request granting_world [game_a]) zh_client
             (zh_target zh_client) (Zh.message zh_client [game_a])
             (zh_headers "tok") 30%Z).
    vm_compute. right. left.
Defined.

(** ** Cached, empty and refused tokens *)

Lemma truthy_nonempty (s : string) : s <> "" -> truthy (Some s) = true.
Proof. destruct s; [contradiction|reflexivity]. Qed.

(** X4.  When the silent acquisition of the English mailer yields a
    dictionary with a non-empty access token, the token endpoint is not
    called: the send is the silent attempt, the POST carrying the cached token,
    and the record of the outcome. *)
Theorem X4_cached_token (w : world) (self : En.MsGraphMailer)
    (app : ConfidentialClientApplication) (cache : gmap string string)
    (token : string) (promotions : list PromotionGame) :
  fields_present self = true ->
  En._confidential_client self = Some app ->
  acquire_token_silent w app scopes = Some cache ->
  cache !! "access_token" = Some token ->
  token <> "" ->
  En.send_free_game_digest w self promotions
    = ([AcquireTokenSilent app scopes;
        Post (en_target self) (En.payload self promotions)
          [("Authorization", "Bearer " +:+ token)] 30;
        delivery_log (en_response w self promotions (Some token))],
       Returned tt)
  /\ count_events is_token_request (trace (En.send_free_game_digest w self promotions))
     = 0.
Proof.
  intros Hfields Happ Hsilent Hlookup Hne.
  assert (En.send_free_game_digest w self promotions
          = ([AcquireTokenSilent app scopes;
              Post (en_target self) (En.payload self promotions)
                [("Authorization", "Bearer " +:+ token)] 30;
              delivery_log (en_response w self promotions (Some token))],
             Returned tt)) as Heq.
  { rewrite send_free_game_digest_eq, Hfields, Happ.
    rewrite (en_acquire_token_eq w self app Happ).
    unfold acquired, acquisition_calls. rewrite Hsilent.
    repeat (simpl res_truthy; rewrite (dict_truthy_lookup _ _ _ Hlookup); cbv iota).
    simpl res_has. rewrite (dict_has_Some _ _ _ Hlookup). simpl res_get.
    rewrite Hlookup. simpl andb. cbv iota beta.
    rewrite (truthy_nonempty _ Hne). reflexivity. }
  rewrite Heq. split; [reflexivity|].
  unfold delivery_log. destruct (is_success _); reflexivity.
Qed.

(** A configured mailer whose client holds a cached token. *)
Lemma X4_cached_token_witness :
  En.send_free_game_digest cached_world en_mailer [game_a]
    = ([AcquireTokenSilent en_app scopes;
        Post (en_target en_mailer) (En.payload en_mailer [game_a])
          [("Authorization", "Bearer cached")] 30;
        delivery_log (en_response cached_world en_mailer [game_a] (Some "cached"))],
       Returned tt)
  /\ count_events is_token_request
       (trace (En.send_free_game_digest cached_world en_mailer [game_a])) = 0.
Proof.
  apply (X4_cached_token cached_world en_mailer en_app
           {[ "access_token" := "cached" ]} "cached" [game_a]);
    try reflexivity.
  discriminate.
Defined.

(** X5.  An access token that is the empty string: the English mailer ends
    the send after the acquisition calls, without a POST and without any log
    record; the localized client goes on and posts with an empty bearer
    token. *)
Theorem X5_empty_token (w : world) (promotions : list PromotionGame) :
  (forall (self : En.MsGraphMailer) (app : ConfidentialClientApplication),
     fields_present self = true ->
     En._confidential_client self = Some app ->
     res_get "access_token" (acquired w app) = Some "" ->
     En.send_free_game_digest w self promotions
       = (AcquireTokenSilent app scopes ::
          (if res_truthy (acquire_token_silent w app scopes)
           then []
           else [AcquireTokenForClient app scopes]),
          Returned tt))
  /\
  (forall self : Zh.MicrosoftMailClient,
     promotions <> [] ->
     Zh.recipients self <> [] ->
     acquire_token_for_client w (zh_app self) scopes !! "access_token" = Some "" ->
     exists rest : list event,
       trace (Zh.send_promotions w self promotions)
         = AcquireTokenForClient (zh_app self) scopes ::
           Post (zh_target self) (Zh.message self promotions)
             [("Authorization", "Bearer ")] 30 :: rest).
Proof.
  split.
  - intros self app Hfields Happ Hempty.
    rewrite send_free_game_digest_eq, Hfields, Happ.
    rewrite (en_acquire_token_eq w self app Happ).
    destruct (acquired w app) as [d|] eqn:Hacq; [|discriminate].
    simpl in Hempty. simpl res_truthy. simpl res_has. simpl res_get.
    rewrite (dict_truthy_lookup _ _ _ Hempty), (dict_has_Some _ _ _ Hempty), Hempty.
    reflexivity.
  - intros self Hps Hrs Hempty.
    rewrite send_promotions_eq, zh_acquire_token_eq, Hempty.
    destruct promotions as [|p ps]; [contradiction|].
    destruct (Zh.recipients self) as [|r rs]; [contradiction|].
    eexists. reflexivity.
Qed.

(** Both notifiers against a token endpoint that grants an empty token. *)
Lemma X5_empty_token_witness :
  En.send_free_game_digest empty_token_world en_mailer [game_a]
    = (AcquireTokenSilent en_app scopes ::
       (if res_truthy (acquire_token_silent empty_token_world en_app scopes)
        then []
        else [AcquireTokenForClient en_app scopes]),
       Returned tt)
  /\
  (exists rest : list event,
     trace (Zh.send_promotions empty_token_world zh_client [game_a])
       = AcquireTokenForClient (zh_app zh_client) scopes ::
         Post (zh_target zh_client) (Zh.message zh_client [game_a])
           [("Authorization", "Bearer ")] 30 :: rest).
Proof.
  split.
  - apply (proj1 (X5_empty_token empty_token_world [game_a]) en_mailer en_app);
      reflexivity.
  - apply (proj2 (X5_empty_token empty_token_world [game_a]) zh_client);
      [discriminate | discriminate | reflexivity].
Defined.

(** X6.  When the silent acquisition of the English mailer answers with a
    non-empty dictionary that has no access token, the token endpoint is not
    asked at all: the failure is logged with the error and the description of
    that dictionary and the send returns without a POST. *)
Theorem X6_silent_error (w : world) (self : En.MsGraphMailer)
    (app : ConfidentialClientApplication) (answer : gmap string string)
    (promotions : list PromotionGame) :
  fields_present self = true ->
  En._confidential_client self = Some app ->
  acquire_token_silent w app scopes = Some answer ->
  answer <> ∅ ->
  answer !! "access_token" = None ->
  En.send_free_game_digest w self promotions
    = ([AcquireTokenSilent app scopes;
        Log ERROR "Failed to acquire Microsoft Graph access token."
          [("error", LAttr (answer !! "error"));
           ("description", LAttr (answer !! "error_description"))]],
       Returned tt).
Proof.
  intros Hfields Happ Hsilent Hne Hnone.
  assert (dict_truthy answer = true) as Htruthy.
  { unfold dict_truthy. apply bool_decide_eq_true. exact Hne. }
  rewrite send_free_game_digest_eq, Hfields, Happ.
  rewrite (en_acquire_token_eq w self app Happ).
  unfold acquired, acquisition_calls, token_failure_log.
  rewrite Hsilent.
  repeat (simpl res_truthy; rewrite Htruthy; cbv iota).
  simpl res_has. rewrite (dict_has_None _ _ Hnone). reflexivity.
Qed.

(** A configured mailer whose silent acquisition reports an error. *)
Lemma X6_silent_error_witness :
  silent_error_answer !! "error" = Some "interaction_required"
  /\ silent_error_answer !! "error_description" = Some "expired"
  /\ En.send_free_game_digest silent_error_world en_mailer [game_a]
     = ([AcquireTokenSilent en_app scopes;
         Log ERROR "Failed to acquire Microsoft Graph access token."
           [("error", LAttr (silent_error_answer !! "error"));
            ("description", LAttr (silent_error_answer !! "error_description"))]],
        Returned tt).
Proof.
  split; [reflexivity|]. split; [reflexivity|].
  apply (X6_silent_error silent_error_world en_mailer en_app silent_error_answer
           [game_a]); try reflexivity.
  intros Heq. apply (f_equal (fun d : gmap string string => d !! "error")) in Heq.
  vm_compute in Heq. discriminate.
Defined.

(** X7.  A token response that has neither an access token nor an error
    description: the English mailer logs a description of [None], and the
    message of the localized client's [RuntimeError] ends in the text
    [None]. *)
Theorem X7_missing_description (w : world) (promotions : list PromotionGame) :
  (forall (self : En.MsGraphMailer) (app : ConfidentialClientApplication),
     fields_present self = true ->
     En._confidential_client self = Some app ->
     res_truthy (acquire_token_silent w app scopes) = false ->
     acquire_token_for_client w app scopes !! "access_token" = None ->
     acquire_token_for_client w app scopes !! "error_description" = None ->
     exists code : option string,
       trace (En.send_free_game_digest w self promotions)
         = [AcquireTokenSilent app scopes;
            AcquireTokenForClient app scopes;
            Log ERROR "Failed to acquire Microsoft Graph access token."
              [("error", LAttr code); ("description", LAttr None)]])
  /\
  (forall self : Zh.MicrosoftMailClient,
     promotions <> [] ->
     Zh.recipients self <> [] ->
     acquire_token_for_client w (zh_app self) scopes !! "access_token" = None ->
     acquire_token_for_client w (zh_app self) scopes !! "error_description" = None ->
     result (Zh.send_promotions w self promotions)
       = Raised (RuntimeError "Failed to acquire Microsoft Graph token: None")).
Proof.
  split.
  - intros self app Hfields Happ Hsilent Hnone Hdesc.
    exists (acquire_token_for_client w app scopes !! "error").
    rewrite send_free_game_digest_eq, Hfields, Happ.
    rewrite (en_acquire_token_eq w self app Happ).
    unfold acquired, acquisition_calls, token_failure_log. rewrite Hsilent.
    simpl res_has. rewrite (dict_has_None _ _ Hnone), andb_false_r.
    simpl res_truthy. simpl res_get. rewrite !falsy_get, Hdesc. reflexivity.
  - intros self Hps Hrs Hnone Hdesc.
    rewrite send_promotions_eq, zh_acquire_token_eq, Hnone, Hdesc.
    destruct promotions as [|p ps]; [contradiction|].
    destruct (Zh.recipients self) as [|r rs]; [contradiction|]. reflexivity.
Qed.

(** Both notifiers against a token endpoint that answers with an empty
    dictionary. *)
Lemma X7_missing_description_witness :
  (exists code : option string,
     trace (En.send_free_game_digest mute_world en_mailer [game_a])
       = [AcquireTokenSilent en_app scopes;
          AcquireTokenForClient en_app scopes;
          Log ERROR "Failed to acquire Microsoft Graph access token."
            [("error", LAttr code); ("description", LAttr None)]])
  /\
  result (Zh.send_promotions mute_world zh_client [game_a])
    = Raised (RuntimeError "Failed to acquire Microsoft Graph token: None").
Proof.
  split.
  - apply (proj1 (X7_missing_description mute_world [game_a]) en_mailer en_app);
      reflexivity.
  - apply (proj2 (X7_missing_description mute_world [game_a]) zh_client);
      [discriminate | discriminate | reflexivity | reflexivity].
Defined.

(** ** When a send raises, and what it logs *)

(** X8.  The English mailer raises on none of its paths.  The localized
    client raises exactly when there is something to send and someone to send
    it to, and either the token response has no access token or the response
    of [sendMail] is not a 2xx one. *)
Theorem X8_when_a_send_raises (w : world) (promotions : list PromotionGame) :
  (forall self : En.MsGraphMailer,
     raises (En.send_free_game_digest w self promotions) = false)
  /\
  (forall self : Zh.MicrosoftMailClient,
     raises (Zh.send_promotions w self promotions)
       = nonempty promotions && nonempty (Zh.recipients self)
         && match acquire_token_for_client w (zh_app self) scopes !! "access_token" with
            | None => true
            | Some token => negb (is_success (zh_response w self promotions token))
            end).
Proof.
  split; intros self.
  - en_paths w self; reflexivity.
  - zh_paths w self promotions; cbv zeta;
      try destruct (is_success _); reflexivity.
Qed.

(** X9.  The localized client writes one log record when it returns and
    none when it raises: a failed acquisition or delivery leaves no record.
    The English mailer writes no record at all only when the acquired access
    token is the empty string. *)
Theorem X9_log_records (w : world) (promotions : list PromotionGame) :
  (forall self : Zh.MicrosoftMailClient,
     count_events is_log (trace (Zh.send_promotions w self promotions))
       = if raises (Zh.send_promotions w self promotions) then 0 else 1)
  /\
  (forall self : En.MsGraphMailer,
     count_events is_log (trace (En.send_free_game_digest w self promotions)) = 0 ->
     exists app : ConfidentialClientApplication,
       fields_present self = true
       /\ En._confidential_client self = Some app
       /\ res_get "access_token" (acquired w app) = Some "").
Proof.
  split; intros self.
  - zh_paths w self promotions; cbv zeta;
      try destruct (is_success _); reflexivity.
  - rewrite send_free_game_digest_eq.
    destruct (fields_present self); [|discriminate].
    destruct (En._confidential_client self) as [app|] eqn:Happ; [|discriminate].
    rewrite (en_acquire_token_eq w self app Happ). unfold acquisition_calls.
    destruct (res_truthy (acquired w app) && res_has "access_token" (acquired w app))
      eqn:Hcond.
    + destruct (res_get "access_token" (acquired w app)) as [[|c token]|] eqn:Hget.
      * intros _. exists app. repeat split. exact Hget.
      * simpl truthy. cbv iota. unfold delivery_log.
        destruct (res_truthy (acquire_token_silent w app scopes));
          destruct (is_success _); discriminate.
      * apply andb_prop in Hcond. destruct Hcond as [_ Hhas].
        destruct (acquired w app) as [d|]; [|discriminate].
        simpl in Hhas, Hget. apply bool_decide_eq_true in Hhas.
        rewrite Hget in Hhas. destruct Hhas as [x Hx]. discriminate.
    + destruct (res_truthy (acquire_token_silent w app scopes)); discriminate.
Qed.

(** A configured English mailer that logs nothing: the token is empty. *)
Lemma X9_log_records_witness :
  count_events is_log
    (trace (Zh.send_promotions failing_world zh_client [game_a])) = 0
  /\ exists app : ConfidentialClientApplication,
       fields_present en_mailer = true
       /\ En._confidential_client en_mailer = Some app
       /\ res_get "access_token" (acquired empty_token_world app) = Some "".
Proof.
  split.
  - apply (proj1 (X9_log_records failing_world [game_a]) zh_client).
  - apply (proj2 (X9_log_records empty_token_world [game_a]) en_mailer).
    reflexivity.
Defined.

(** ** The items of a body whose fields carry no markup *)

(** Game A and Game B carry no markup: each body has two [<li>]. *)
Lemma li_count_markup_free_witness :
  (occurrences "<li>" (En._build_body [game_a; game_b]) = length [game_a; game_b])
  /\ occurrences "<li>" (Zh.html_body [game_a; game_b]) = length [game_a; game_b].
Proof.
  destruct (li_count_markup_free [game_a; game_b]) as [Hen Hzh].
  - repeat constructor.
  - split; [apply Hen; discriminate | exact Hzh].
Defined.

(** ** The credentials of a token acquisition *)

Lemma init_client_eq (cid sec ten snd rcp : option string) :
  all [cid; sec; ten; snd; rcp] = true ->
  exists c s t : string,
    cid = Some c /\ sec = Some s /\ ten = Some t
    /\ En._confidential_client (En.__init__ cid sec ten snd rcp)
       = Some {| app_client_id := Some c;
                 app_client_credential := Some s;
                 app_authority := Some ("https://login.microsoftonline.com/" +:+ t) |}.
Proof.
  unfold all. simpl. intros H.
  repeat (apply andb_prop in H; destruct H as [? H]).
  destruct (truthy_Some cid) as (c & -> & Hc); [assumption|].
  destruct (truthy_Some sec) as (s & -> & Hs); [assumption|].
  destruct (truthy_Some ten) as (t & -> & Ht); [assumption|].
  exists c, s, t. repeat split.
  unfold En.__init__, all. cbn [En._confidential_client forallb].
  rewrite !(truthy_nonempty t Ht), (truthy_nonempty c Hc), (truthy_nonempty s Hs).
  reflexivity.
Qed.

(** X11.  For a notifier built by its constructor, every acquisition call
    of a send (silent attempt or token request) is made for the single scope
    [https://graph.microsoft.com/.default], with a confidential client that
    holds the configured client id and secret and the authority
    [https://login.microsoftonline.com/] followed by the tenant id. *)
Theorem X11_acquisition_credentials (w : world) (promotions : list PromotionGame) :
  (forall (cid sec ten snd rcp : option string) (e : event),
     e ∈ trace (En.send_free_game_digest w (En.__init__ cid sec ten snd rcp) promotions) ->
     is_silent_attempt e || is_token_request e = true ->
     exists c s t : string,
       cid = Some c /\ sec = Some s /\ ten = Some t
       /\ (e = AcquireTokenSilent
                 {| app_client_id := Some c;
                    app_client_credential := Some s;
                    app_authority := Some ("https://login.microsoftonline.com/" +:+ t) |}
                 ["https://graph.microsoft.com/.default"]
           \/ e = AcquireTokenForClient
                    {| app_client_id := Some c;
                       app_client_credential := Some s;
                       app_authority :=
                         Some ("https://login.microsoftonline.com/" +:+ t) |}
                    ["https://graph.microsoft.com/.default"]))
  /\
  (forall (ten cid sec snd : string) (rcps : list string) (e : event),
     e ∈ trace (Zh.send_promotions w (Zh.__init__ ten cid sec snd rcps) promotions) ->
     is_silent_attempt e || is_token_request e = true ->
     e = AcquireTokenForClient
           {| app_client_id := Some cid;
              app_client_credential := Some sec;
              app_authority := Some ("https://login.microsoftonline.com/" +:+ ten) |}
           ["https://graph.microsoft.com/.default"]).
Proof.
  split.
  - intros cid sec ten snd rcp e.
    rewrite send_free_game_digest_eq.
    destruct (fields_present (En.__init__ cid sec ten snd rcp)) eqn:Hfields.
    2:{ intros Hin He. apply list_elem_of_singleton in Hin. subst e. discriminate. }
    destruct (init_client_eq cid sec ten snd rcp Hfields)
      as (c & s & t & -> & -> & -> & Happ).
    rewrite Happ. rewrite (en_acquire_token_eq w _ _ Happ).
    set (app := {| app_client_id := Some c;
                   app_client_credential := Some s;
                   app_authority :=
                     Some ("https://login.microsoftonline.com/" +:+ t) |}) in *.
    assert (forall e', e' ∈ acquisition_calls w app ->
              e' = AcquireTokenSilent app scopes
              \/ e' = AcquireTokenForClient app scopes) as Hcalls.
    { intros e' Hin. unfold acquisition_calls in Hin.
      apply elem_of_cons in Hin. destruct Hin as [->|Hin]; [left; reflexivity|].
      destruct (res_truthy (acquire_token_silent w app scopes)).
      - apply elem_of_nil in Hin. contradiction.
      - apply list_elem_of_singleton in Hin. right. exact Hin. }
    intros Hin He. exists c, s, t. repeat split.
    destruct (res_truthy (acquired w app) && res_has "access_token" (acquired w app)).
    + destruct (truthy (res_get "access_token" (acquired w app))).
      * unfold trace in Hin; cbv beta iota delta [fst] in Hin.
        apply elem_of_app in Hin. destruct Hin as [Hin|Hin]; [auto|].
        apply elem_of_cons in Hin. destruct Hin as [->|Hin]; [discriminate|].
        apply list_elem_of_singleton in Hin. subst e. unfold delivery_log in He.
        destruct (is_success _); discriminate.
      * auto.
    + unfold trace in Hin; cbv beta iota delta [fst] in Hin.
      apply elem_of_app in Hin. destruct Hin as [Hin|Hin]; [auto|].
      apply list_elem_of_singleton in Hin. subst e. discriminate.
  - intros ten cid sec snd rcps e.
    zh_paths w (Zh.__init__ ten cid sec snd rcps) promotions;
      unfold trace; cbv beta iota delta [fst]; intros Hin He.
    + apply list_elem_of_singleton in Hin. subst e. discriminate.
    + apply list_elem_of_singleton in Hin. subst e. discriminate.
    + apply elem_of_cons in Hin. destruct Hin as [->|Hin]; [reflexivity|].
      apply elem_of_cons in Hin. destruct Hin as [->|Hin]; [discriminate|].
      destruct (is_success _).
      * apply list_elem_of_singleton in Hin. subst e. discriminate.
      * apply elem_of_nil in Hin. contradiction.
    + apply list_elem_of_singleton in Hin. subst e. reflexivity.
Qed.

(** The token requests of a send of Game A by either notifier. *)
Lemma X11_acquisition_credentials_witness :
  (exists c s t : string,
     Some "cid" = Some c /\ Some "secret" = Some s /\ Some "tenant" = Some t
     /\ (AcquireTokenForClient en_app scopes
         = AcquireTokenSilent
             {| app_client_id := Some c;
                app_client_credential := Some s;
                app_authority := Some ("https://login.microsoftonline.com/" +:+ t) |}
             ["https://graph.microsoft.com/.default"]
         \/ AcquireTokenForClient en_app scopes
            = AcquireTokenForClient
                {| app_client_id := Some c;
                   app_client_credential := Some s;
                   app_authority :=
                     Some ("https://login.microsoftonline.com/" +:+ t) |}
                ["https://graph.microsoft.com/.default"]))
  /\
  AcquireTokenForClient (zh_app zh_client) scopes
    = AcquireTokenForClient
        {| app_client_id := Some "cid";
           app_client_credential := Some "secret";
           app_authority := Some ("https://login.microsoftonline.com/" +:+ "tenant") |}
        ["https://graph.microsoft.com/.default"].
Proof.
  split.
  - apply (proj1 (X11_acquisition_credentials granting_world [game_a])
             (Some "cid") (Some "secret") (Some "tenant")
             (Some "me@example.org") (Some "you@example.org")
             (AcquireTokenForClient en_app scopes)).
    + vm_compute. right. left.
    + reflexivity.
  - apply (proj2 (X11_acquisition_credentials granting_world [game_a])
             "tenant" "cid" "secret" "me@example.org"
             ["you@example.org"; "them@example.org"]
             (AcquireTokenForClient (zh_app zh_client) scopes)).
    + vm_compute. left.
    + reflexivity.
Defined.

(** ** What the English acquirer returns *)

(** X12.  With its client in place, the English [_acquire_token] never
    raises: it returns the access token of the answer it settled on (the
    silent answer when that is a non-empty dictionary, the token endpoint's
    answer otherwise), or [None] when that answer has none; and it writes its
    error record exactly when it returns [None]. *)
Theorem X12_acquired_token (w : world) (self : En.MsGraphMailer)
    (app : ConfidentialClientApplication) :
  En._confidential_client self = Some app ->
  result (En._acquire_token w self)
    = Returned (res_get "access_token" (acquired w app))
  /\ count_events is_log (trace (En._acquire_token w self))
     = match res_get "access_token" (acquired w app) with
       | Some _ => 0
       | None => 1
       end.
Proof.
  intros Happ. rewrite (en_acquire_token_eq w self app Happ).
  unfold acquisition_calls.
  destruct (acquired w app) as [d|] eqn:Hacq.
  - simpl res_truthy. simpl res_has. simpl res_get.
    destruct (d !! "access_token") as [token|] eqn:Hget.
    + rewrite (dict_truthy_lookup _ _ _ Hget), (dict_has_Some _ _ _ Hget).
      destruct (res_truthy (acquire_token_silent w app scopes)); split; reflexivity.
    + rewrite (dict_has_None _ _ Hget), andb_false_r.
      destruct (res_truthy (acquire_token_silent w app scopes)); split; reflexivity.
  - destruct (res_truthy (acquire_token_silent w app scopes)); split; reflexivity.
Qed.

(** The acquirer of a configured mailer, refused and granted. *)
Lemma X12_acquired_token_witness :
  (result (En._acquire_token refusing_world en_mailer) = Returned None
   /\ count_events is_log (trace (En._acquire_token refusing_world en_mailer)) = 1)
  /\
  (result (En._acquire_token granting_world en_mailer) = Returned (Some "tok")
   /\ count_events is_log (trace (En._acquire_token granting_world en_mailer)) = 0).
Proof.
  split.
  - apply (X12_acquired_token refusing_world en_mailer en_app). reflexivity.
  - apply (X12_acquired_token granting_world en_mailer en_app). reflexivity.
Defined.

(** ** The order of a send *)

(** X13.  The events of a send of either notifier come in the order silent
    attempt, token request, POST, log record, each at most once: nothing is
    requested after the POST, and nothing at all happens after a log record. *)
Theorem X13_order_of_a_send (w : world) (promotions : list PromotionGame) :
  (forall self : En.MsGraphMailer,
     increasing (map phase (trace (En.send_free_game_digest w self promotions))) = true)
  /\
  (forall self : Zh.MicrosoftMailClient,
     increasing (map phase (trace (Zh.send_promotions w self promotions))) = true).
Proof.
  split; intros self.
  - en_paths w self; unfold delivery_log;
      try destruct (is_success _); reflexivity.
  - zh_paths w self promotions; cbv zeta;
      try destruct (is_success _); reflexivity.
Qed.
